(** * deviceid: a persistent device identifier

    A shallow embedding of the Go package [deviceid] (file [deviceid.go])
    and the proofs of its specified properties.

    Layout of the development:
    - Go values: strings are byte sequences ([string], one [ascii] per
      byte), [[]byte] is [list Z] with every element in [0, 256), [rune]
      and [uint32] are [Z] with the wrap-around written out, an [error]
      is a chain of wrapped errors and a [(T, error)] result is the pair
      [T * option error];
    - the Go run time and standard library the package calls:
      the [range] loop over a string, [crypto/sha256], [encoding/hex],
      [path/filepath] and the [os] calls on a file system;
    - the package itself, function by function, in a state monad over
      the world the process runs in;
    - the theorems. *)

From Stdlib Require Import ZArith Lia Ascii.
From stdpp Require Import base strings gmap list.

Open Scope Z_scope.

(** ** Go strings and bytes *)

(** The value of a byte of a string, as [s[i]] gives it. *)
Definition byteZ (c : ascii) : Z := Z.of_N (N_of_ascii c).

(** [[]byte(s)]: the bytes of a string. *)
Fixpoint bytes_of_string (s : string) : list Z :=
  match s with
  | EmptyString => []
  | String c s' => byteZ c :: bytes_of_string s'
  end.

(** [s[i]] for [i] in range (Go panics out of range; no caller here
    indexes out of range, the default is never observed). *)
Definition index (s : string) (i : Z) : ascii :=
  match String.get (Z.to_nat i) s with
  | Some c => c
  | None => "000"%char
  end.

(** ** The [range] loop over a string (Go run time, [runtime/utf8.go]) *)

Module utf8.

Definition runeError : Z := 0xFFFD.
Definition runeSelf : Z := 0x80.
Definition maxRune : Z := 0x10FFFF.
Definition surrogateMin : Z := 0xD800.
Definition surrogateMax : Z := 0xDFFF.

Definition t2 : Z := 0xC0.
Definition t3 : Z := 0xE0.
Definition t4 : Z := 0xF0.
Definition t5 : Z := 0xF8.
Definition maskx : Z := 0x3F.
Definition mask2 : Z := 0x1F.
Definition mask3 : Z := 0x0F.
Definition mask4 : Z := 0x07.
Definition rune1Max : Z := 0x7F.
Definition rune2Max : Z := 0x7FF.
Definition rune3Max : Z := 0xFFFF.
Definition locb : Z := 0x80.
Definition hicb : Z := 0xBF.

(** A continuation byte. *)
Definition cont (b : Z) : bool := (locb <=? b) && (b <=? hicb).

(** [decoderune(s, k)] on the suffix [s[k:]]: the rune that starts
    there and the number of bytes it takes. An ill-formed, overlong,
    surrogate or out-of-range sequence gives [runeError] and one byte. *)
Definition decoderune (s : string) : Z * nat :=
  match s with
  | EmptyString => (runeError, 1%nat)
  | String c0 s1 =>
    let b0 := byteZ c0 in
    if (t2 <=? b0) && (b0 <? t3) then
      match s1 with
      | String c1 _ =>
        let b1 := byteZ c1 in
        let r := Z.lor (Z.shiftl (Z.land b0 mask2) 6) (Z.land b1 maskx) in
        if cont b1 && (rune1Max <? r) then (r, 2%nat)
        else (runeError, 1%nat)
      | _ => (runeError, 1%nat)
      end
    else if (t3 <=? b0) && (b0 <? t4) then
      match s1 with
      | String c1 (String c2 _) =>
        let b1 := byteZ c1 in
        let b2 := byteZ c2 in
        let r := Z.lor (Z.lor (Z.shiftl (Z.land b0 mask3) 12)
                              (Z.shiftl (Z.land b1 maskx) 6))
                       (Z.land b2 maskx) in
        if cont b1 && cont b2 && (rune2Max <? r)
           && negb ((surrogateMin <=? r) && (r <=? surrogateMax))
        then (r, 3%nat)
        else (runeError, 1%nat)
      | _ => (runeError, 1%nat)
      end
    else if (t4 <=? b0) && (b0 <? t5) then
      match s1 with
      | String c1 (String c2 (String c3 _)) =>
        let b1 := byteZ c1 in
        let b2 := byteZ c2 in
        let b3 := byteZ c3 in
        let r := Z.lor (Z.lor (Z.lor (Z.shiftl (Z.land b0 mask4) 18)
                                     (Z.shiftl (Z.land b1 maskx) 12))
                              (Z.shiftl (Z.land b2 maskx) 6))
                       (Z.land b3 maskx) in
        if cont b1 && cont b2 && cont b3 && (rune3Max <? r) && (r <=? maxRune)
        then (r, 4%nat)
        else (runeError, 1%nat)
      | _ => (runeError, 1%nat)
      end
    else (runeError, 1%nat)
  end.

(** One step of [for _, r := range s]: at the head of the suffix [s]
    (not empty), a byte below [runeSelf] is its own rune, anything else
    goes through [decoderune]. *)
Definition next (c : ascii) (s : string) : Z * nat :=
  if byteZ c <? runeSelf then (byteZ c, 1%nat) else decoderune s.

End utf8.

(** ** [crypto/sha256]: [Sum256] *)

Module sha256.

Definition chunk : nat := 64.

(** [uint32] arithmetic. *)
Definition u32 (x : Z) : Z := x mod 2 ^ 32.
Definition add32 (x y : Z) : Z := u32 (x + y).
Definition not32 (x : Z) : Z := Z.lxor x 0xFFFFFFFF.
(** [bits.RotateLeft32(x, -n)] *)
Definition rotr (x n : Z) : Z :=
  Z.lor (Z.shiftr x n) (u32 (Z.shiftl x (32 - n))).

Definition _K : list Z :=
  [0x428a2f98; 0x71374491; 0xb5c0fbcf; 0xe9b5dba5; 0x3956c25b; 0x59f111f1; 0x923f82a4; 0xab1c5ed5] ++
  [0xd807aa98; 0x12835b01; 0x243185be; 0x550c7dc3; 0x72be5d74; 0x80deb1fe; 0x9bdc06a7; 0xc19bf174] ++
  [0xe49b69c1; 0xefbe4786; 0x0fc19dc6; 0x240ca1cc; 0x2de92c6f; 0x4a7484aa; 0x5cb0a9dc; 0x76f988da] ++
  [0x983e5152; 0xa831c66d; 0xb00327c8; 0xbf597fc7; 0xc6e00bf3; 0xd5a79147; 0x06ca6351; 0x14292967] ++
  [0x27b70a85; 0x2e1b2138; 0x4d2c6dfc; 0x53380d13; 0x650a7354; 0x766a0abb; 0x81c2c92e; 0x92722c85] ++
  [0xa2bfe8a1; 0xa81a664b; 0xc24b8b70; 0xc76c51a3; 0xd192e819; 0xd6990624; 0xf40e3585; 0x106aa070] ++
  [0x19a4c116; 0x1e376c08; 0x2748774c; 0x34b0bcb5; 0x391c0cb3; 0x4ed8aa4a; 0x5b9cca4f; 0x682e6ff3] ++
  [0x748f82ee; 0x78a5636f; 0x84c87814; 0x8cc70208; 0x90befffa; 0xa4506ceb; 0xbef9a3f7; 0xc67178f2].

(** The eight words [h[0..7]] of a digest. *)
Record digest := Digest {
  h0 : Z; h1 : Z; h2 : Z; h3 : Z; h4 : Z; h5 : Z; h6 : Z; h7 : Z
}.

Definition init : digest :=
  Digest 0x6a09e667 0xbb67ae85 0x3c6ef372 0xa54ff53a
         0x510e527f 0x9b05688c 0x1f83d9ab 0x5be0cd19.

(** [w[i]] of the message schedule, default [0] as in a zeroed array. *)
Definition at_ (w : list Z) (i : nat) : Z := nth i w 0.

(** [w[0..15]]: the sixteen big-endian words of a 64-byte block. *)
Fixpoint words (n : nat) (p : list Z) : list Z :=
  match n, p with
  | S n', b0 :: b1 :: b2 :: b3 :: p' =>
    Z.lor (Z.lor (Z.lor (Z.shiftl b0 24) (Z.shiftl b1 16)) (Z.shiftl b2 8)) b3
      :: words n' p'
  | _, _ => []
  end.

(** [w[16..63]]: [n] more words appended to the schedule [w]. *)
Fixpoint extend (n : nat) (w : list Z) : list Z :=
  match n with
  | O => w
  | S n' =>
    let i := length w in
    let v1 := at_ w (i - 2) in
    let t1 := Z.lxor (Z.lxor (rotr v1 17) (rotr v1 19)) (Z.shiftr v1 10) in
    let v2 := at_ w (i - 15) in
    let t2 := Z.lxor (Z.lxor (rotr v2 7) (rotr v2 18)) (Z.shiftr v2 3) in
    extend n' (w ++ [add32 (add32 (add32 t1 (at_ w (i - 7))) t2) (at_ w (i - 16))])
  end.

(** One round on the working variables [a..h], for [_K[i]] and [w[i]]. *)
Definition round (v : digest) (k w : Z) : digest :=
  let '(Digest a b c d e f g h) := v in
  let t1 := add32 (add32 (add32 (add32 h
              (Z.lxor (Z.lxor (rotr e 6) (rotr e 11)) (rotr e 25)))
              (Z.lxor (Z.land e f) (Z.land (not32 e) g))) k) w in
  let t2 := add32 (Z.lxor (Z.lxor (rotr a 2) (rotr a 13)) (rotr a 22))
                  (Z.lxor (Z.lxor (Z.land a b) (Z.land a c)) (Z.land b c)) in
  Digest (add32 t1 t2) a b c (add32 d t1) e f g.

Fixpoint rounds (v : digest) (ks ws : list Z) : digest :=
  match ks, ws with
  | k :: ks', w :: ws' => rounds (round v k w) ks' ws'
  | _, _ => v
  end.

(** The body of [blockGeneric] for one 64-byte block [p]. *)
Definition block1 (dig : digest) (p : list Z) : digest :=
  let w := extend 48 (words 16 p) in
  let v := rounds dig _K w in
  Digest (add32 (h0 dig) (h0 v)) (add32 (h1 dig) (h1 v))
         (add32 (h2 dig) (h2 v)) (add32 (h3 dig) (h3 v))
         (add32 (h4 dig) (h4 v)) (add32 (h5 dig) (h5 v))
         (add32 (h6 dig) (h6 v)) (add32 (h7 dig) (h7 v)).

(** [blockGeneric]: [for len(p) >= chunk { ...; p = p[chunk:] }]; the
    loop runs at most [length p] times, which is what [n] starts at. *)
Fixpoint block (n : nat) (dig : digest) (p : list Z) : digest :=
  match n with
  | O => dig
  | S n' =>
    if (length p <? chunk)%nat then dig
    else block n' (block1 dig (take chunk p)) (drop chunk p)
  end.

(** [byte(x)]: conversion to [uint8] keeps the low eight bits. *)
Definition byte (x : Z) : Z := x mod 256.

(** [binary.BigEndian.PutUint32] and [PutUint64]. *)
Definition be32 (v : Z) : list Z :=
  [byte (Z.shiftr v 24); byte (Z.shiftr v 16); byte (Z.shiftr v 8); byte v].
Definition be64 (v : Z) : list Z :=
  [byte (Z.shiftr v 56); byte (Z.shiftr v 48); byte (Z.shiftr v 40);
   byte (Z.shiftr v 32); byte (Z.shiftr v 24); byte (Z.shiftr v 16);
   byte (Z.shiftr v 8); byte v].

(** The padding [checkSum] writes after a message of [len] bytes: a
    [0x80] byte, zeros up to 56 modulo 64, the length in bits. *)
Definition padding (len : nat) : list Z :=
  let r := (len mod 64)%nat in
  let t := if (r <? 56)%nat then (56 - r)%nat else (64 + 56 - r)%nat in
  0x80 :: replicate (t - 1) 0 ++ be64 (Z.shiftl (Z.of_nat len) 3 mod 2 ^ 64).

(** [Sum256(data)]: the 32 bytes of the digest. *)
Definition Sum256 (data : list Z) : list Z :=
  let p := data ++ padding (length data) in
  let d := block (length p) init p in
  be32 (h0 d) ++ be32 (h1 d) ++ be32 (h2 d) ++ be32 (h3 d) ++
  be32 (h4 d) ++ be32 (h5 d) ++ be32 (h6 d) ++ be32 (h7 d).

End sha256.

(** ** [encoding/hex]: [EncodeToString] *)

Module hex.

Definition hextable : string := "0123456789abcdef".

(** [Encode]: two digits per byte, [hextable[v>>4]] and
    [hextable[v&0x0f]]. *)
Fixpoint EncodeToString (src : list Z) : string :=
  match src with
  | [] => EmptyString
  | v :: src' =>
    String (index hextable (Z.shiftr v 4))
      (String (index hextable (Z.land v 0x0f)) (EncodeToString src'))
  end.

End hex.

(** ** [path/filepath] on a Unix-like target (separator [/], no volume) *)

Module filepath.

Definition Separator : ascii := "/"%char.
Definition dot : ascii := "."%char.

Definition isSep (c : ascii) : bool := bool_decide (c = Separator).

(** The element that starts here ends here: end of path or a separator. *)
Definition atEnd (s : string) : bool :=
  match s with
  | EmptyString => true
  | String c _ => isSep c
  end.

(** Backtracking over the last element of the output of [Clean]:
    [out.w--; for out.w > dotdot && out.index(out.w) != '/' { out.w-- }].
    The buffer [out] is kept last byte first, so [out.w] is its length
    and [last] is the byte at [out.index(out.w)]. *)
Fixpoint backtrack (out : list ascii) (last : ascii) (dotdot : nat) : list ascii :=
  match out with
  | [] => []
  | c :: out' =>
    if (dotdot <? length out)%nat && negb (isSep last)
    then backtrack out' c dotdot
    else out
  end.

(** The main loop of [Clean], [for r < n { switch ... }], on the part of
    the path not read yet. [copying] is set inside the inner loop that
    copies a real path element; when that loop meets a separator the
    outer loop skips it in its next turn, which is done here at once. *)
Fixpoint clean (rooted : bool) (out : list ascii) (dotdot : nat)
    (copying : bool) (path : string) : list ascii :=
  match path with
  | EmptyString => out
  | String c rest =>
    if copying then
      if isSep c then clean rooted out dotdot false rest
      else clean rooted (c :: out) dotdot true rest
    else if isSep c then
      (* empty path element *)
      clean rooted out dotdot false rest
    else if bool_decide (c = dot) && atEnd rest then
      (* . element *)
      clean rooted out dotdot false rest
    else
      match rest with
      | String c1 rest1 =>
        if bool_decide (c = dot) && bool_decide (c1 = dot) && atEnd rest1 then
          (* .. element: remove to last / *)
          if (dotdot <? length out)%nat then
            match out with
            | last :: out' => clean rooted (backtrack out' last dotdot) dotdot false rest1
            | [] => clean rooted out dotdot false rest1
            end
          else if negb rooted then
            let out1 := if (0 <? length out)%nat then Separator :: out else out in
            let out2 := dot :: dot :: out1 in
            clean rooted out2 (length out2) false rest1
          else clean rooted out dotdot false rest1
        else
          (* real path element: add slash if needed, copy element *)
          let out1 :=
            if (rooted && negb (length out =? 1)%nat)
               || (negb rooted && negb (length out =? 0)%nat)
            then Separator :: out else out in
          clean rooted (c :: out1) dotdot true rest
      | EmptyString =>
        let out1 :=
          if (rooted && negb (length out =? 1)%nat)
             || (negb rooted && negb (length out =? 0)%nat)
          then Separator :: out else out in
        clean rooted (c :: out1) dotdot true rest
      end
  end.

Definition string_of_rev (out : list ascii) : string :=
  fold_left (fun s c => String c s) out EmptyString.

(** [Clean(path)]: the shortest path name equivalent to [path]. *)
Definition Clean (path : string) : string :=
  match path with
  | EmptyString => "."
  | String c rest =>
    let out :=
      if isSep c then clean true [Separator] 1 false rest
      else clean false [] 0 false path in
    match out with
    | [] => "."
    | _ => string_of_rev out
    end
  end.

(** [strings.Join(elems, "/")] *)
Fixpoint joinSep (elems : list string) : string :=
  match elems with
  | [] => ""
  | [e] => e
  | e :: elems' => e +:+ String Separator (joinSep elems')
  end.

(** [Join(elem...)]: the elements from the first non-empty one on,
    separated by [/], cleaned; empty when every element is empty. *)
Fixpoint Join (elem : list string) : string :=
  match elem with
  | [] => ""
  | e :: elem' =>
    if bool_decide (e = "") then Join elem' else Clean (joinSep elem)
  end.

(** [path[:i+1]] for [i] the index of the last separator of [path]
    ([-1] when it has none). *)
Fixpoint uptoLastSep (path : string) : string :=
  match path with
  | EmptyString => ""
  | String c rest =>
    let t := uptoLastSep rest in
    if isSep c || negb (bool_decide (t = "")) then String c t else ""
  end.

(** [Dir(path)]: all but the last element of [path], cleaned. *)
Definition Dir (path : string) : string := Clean (uptoLastSep path).

End filepath.

(** ** Go errors *)

(** The [syscall.Errno] values the file system model produces. *)
Inductive Errno := ENOENT | EACCES | EEXIST | ENOTDIR | EISDIR.

(** An [error] value: a leaf, or [fmt.Errorf("msg: %w", err)] around
    another error. *)
Inductive error :=
  | PathError (op path : string) (errno : Errno)  (* [*fs.PathError] *)
  | ExecError (detail : string)       (* [*exec.Error], [*exec.ExitError] *)
  | New (msg : string)                (* [errors.New], [fmt.Errorf] without [%w] *)
  | Wrap (msg : string) (err : error). (* [fmt.Errorf(msg + ": %w", err)] *)

(** [errors.Unwrap] down to the innermost error of the chain. *)
Fixpoint cause (err : error) : error :=
  match err with
  | Wrap _ e => cause e
  | _ => err
  end.

(** A Go result [(T, error)]. *)
Definition result (T : Type) : Type := T * option error.

(** ** The [os] package: a file system *)

Module os.

(** The file system is a map from clean path names to nodes. The model
    keeps what the package can tell apart: whether a name is there, a
    file or a directory, and the owner's permission bits of the node and
    of the directory it lies in. It leaves out the rest of a real file
    system: permissions of directories further up the path, symbolic
    links, the umask, and I/O errors in the middle of a write (a write
    either replaces the whole content or fails and changes nothing).

    A node of the file system: a regular file with its permission bits
    and content, or a directory with its permission bits. *)
Inductive node :=
  | File (perm : Z) (data : string)
  | Directory (perm : Z).

(** The owner's permission bits (the process owns what it sees). *)
Definition readable (perm : Z) : bool := Z.testbit perm 8.
Definition writable (perm : Z) : bool := Z.testbit perm 7.
Definition searchable (perm : Z) : bool := Z.testbit perm 6.

(** [os.IsNotExist(err)]: looks under a [*PathError], not under a
    [fmt] wrapper. *)
Definition IsNotExist (err : error) : bool :=
  match err with
  | PathError _ _ ENOENT => true
  | _ => false
  end.

(** Why a name that is not there cannot be created, from its parent
    directory; [None] when it can. *)
Definition createErrno (fs : gmap string node) (path : string) : option Errno :=
  match fs !! filepath.Dir path with
  | Some (Directory perm) =>
    if writable perm && searchable perm then None else Some EACCES
  | Some (File _ _) => Some ENOTDIR
  | None => Some ENOENT
  end.

(** Why a name cannot be opened, from the directory it lies in: that
    directory must allow searching, and must not be a regular file. *)
Definition dirErrno (fs : gmap string node) (name : string) : option Errno :=
  match fs !! filepath.Dir name with
  | Some (Directory perm) => if searchable perm then None else Some EACCES
  | Some (File _ _) => Some ENOTDIR
  | None => None
  end.

(** [os.ReadFile(name)] *)
Definition readFile (fs : gmap string node) (name : string) : result string :=
  match dirErrno fs name with
  | Some e => ("", Some (PathError "open" name e))
  | None =>
    match fs !! name with
    | Some (File perm data) =>
      if readable perm then (data, None)
      else ("", Some (PathError "open" name EACCES))
    | Some (Directory _) => ("", Some (PathError "read" name EISDIR))
    | None => ("", Some (PathError "open" name ENOENT))
    end
  end.

(** [os.Mkdir(name, perm)] *)
Definition mkdir (fs : gmap string node) (name : string) (perm : Z)
    : gmap string node * option error :=
  match fs !! name with
  | Some _ => (fs, Some (PathError "mkdir" name EEXIST))
  | None =>
    match createErrno fs name with
    | Some e => (fs, Some (PathError "mkdir" name e))
    | None => (<[name := Directory perm]> fs, None)
    end
  end.

(** [os.MkdirAll(path, perm)]: nothing to do for a directory, an error
    for a file, otherwise the parent first and then [Mkdir]. The
    recursion climbs one path element a time, up to the root or the
    working directory (the paths that are their own parent); [n] bounds
    the climb, and at the bound [Mkdir] is tried without looking further
    up. *)
Fixpoint mkdirAll (n : nat) (fs : gmap string node) (path : string) (perm : Z)
    : gmap string node * option error :=
  match fs !! path with
  | Some (Directory _) => (fs, None)
  | Some (File _ _) => (fs, Some (PathError "mkdir" path ENOTDIR))
  | None =>
    match n with
    | O => mkdir fs path perm
    | S n' =>
      let parent := filepath.Dir path in
      if bool_decide (parent = path) then mkdir fs path perm
      else
        match mkdirAll n' fs parent perm with
        | (fs1, Some e) => (fs1, Some e)
        | (fs1, None) => mkdir fs1 path perm
        end
    end
  end.

Arguments mkdirAll : simpl never.

(** [os.WriteFile(name, data, perm)]: truncates an existing file (which
    keeps its mode), creates a missing one with mode [perm]. *)
Definition writeFile (fs : gmap string node) (name data : string) (perm : Z)
    : gmap string node * option error :=
  match dirErrno fs name with
  | Some e => (fs, Some (PathError "open" name e))
  | None =>
    match fs !! name with
    | Some (File mode _) =>
      if writable mode then (<[name := File mode data]> fs, None)
      else (fs, Some (PathError "open" name EACCES))
    | Some (Directory _) => (fs, Some (PathError "open" name EISDIR))
    | None =>
      match createErrno fs name with
      | Some e => (fs, Some (PathError "open" name e))
      | None => (<[name := File perm data]> fs, None)
      end
    end
  end.

End os.

(** ** The world a call runs in *)

(** The calls a process makes to the operating system, as they are
    recorded in the trace of a run. *)
Inductive Event :=
  | EvUserHomeDir
  | EvCommand (argv : list string)
  | EvReadFile (name : string)
  | EvMkdirAll (path : string) (perm : Z)
  | EvWriteFile (name data : string) (perm : Z).

(** What the package sees of its environment: the target operating
    system, what [os.UserHomeDir()] answers, what running a command
    prints ([exec.Command(argv...).Output()]), the file system, and the
    trace of the calls made so far (oldest first). *)
Record World := mkWorld {
  GOOS : string;
  home : result string;
  output : list string -> result string;
  files : gmap string os.node;
  trace : list Event
}.

(** Computations on the world. *)
Definition M (A : Type) : Type := World -> A * World.

#[export] Instance M_ret : MRet M := fun A (a : A) (w : World) => (a, w).
#[export] Instance M_bind : MBind M :=
  fun A B (f : A -> M B) (m : M A) (w : World) => let '(a, w1) := m w in f a w1.

Definition record (ev : Event) (fs : gmap string os.node) (w : World) : World :=
  mkWorld (GOOS w) (home w) (output w) fs (trace w ++ [ev]).
Arguments record : simpl never.

Module sys.

(** [runtime.GOOS] *)
Definition goos : M string := fun w => (GOOS w, w).

(** [os.UserHomeDir()] *)
Definition UserHomeDir : M (result string) :=
  fun w => (home w, record EvUserHomeDir (files w) w).

(** [exec.Command(argv...).Output()] *)
Definition Output (argv : list string) : M (result string) :=
  fun w => (output w argv, record (EvCommand argv) (files w) w).

(** [os.ReadFile(name)] *)
Definition ReadFile (name : string) : M (result string) :=
  fun w => (os.readFile (files w) name, record (EvReadFile name) (files w) w).

(** [os.MkdirAll(path, perm)] *)
Definition MkdirAll (path : string) (perm : Z) : M (option error) :=
  fun w =>
    let '(fs, err) := os.mkdirAll (S (String.length path)) (files w) path perm in
    (err, record (EvMkdirAll path perm) fs w).

(** [os.WriteFile(name, data, perm)] *)
Definition WriteFile (name data : string) (perm : Z) : M (option error) :=
  fun w =>
    let '(fs, err) := os.writeFile (files w) name data perm in
    (err, record (EvWriteFile name data perm) fs w).

End sys.

(** ** The package: validation of a fingerprint *)

(** The loop of [IsValidSHA256]:
    [for _, r := range s { if !(...) { return false } }; return true].
    The loop walks the suffixes of [s]; [skip] counts the bytes of the
    current rune still to pass before the next rune starts. *)
Fixpoint IsValidSHA256_range (skip : nat) (s : string) : bool :=
  match s with
  | EmptyString => true
  | String c s' =>
    match skip with
    | S k => IsValidSHA256_range k s'
    | O =>
      let '(r, size) := utf8.next c s in
      if negb (((byteZ "0" <=? r) && (r <=? byteZ "9"))
               || ((byteZ "a" <=? r) && (r <=? byteZ "f")))
      then false
      else IsValidSHA256_range (size - 1) s'
    end
  end.

(** [IsValidSHA256] checks if a string is a valid SHA256 hash. *)
Definition IsValidSHA256 (s : string) : bool :=
  if negb (String.length s =? 64)%nat then false
  else IsValidSHA256_range 0 s.

(** ** The package: configuration and manager *)

(** [DefaultIDFileName] is the name of the file where the device ID is
    stored. *)
Definition DefaultIDFileName : string := ".device_id".

(** [Config] holds the configuration for device ID management:
    [StorageDir], the directory where the device ID file will be stored
    (if empty, defaults to [~/.parity]); [IDFileName], the name of the
    device ID file (if empty, defaults to [.device_id]). *)
Record Config := mkConfig {
  StorageDir : string;
  IDFileName : string
}.

(** [Manager] handles device ID operations. *)
Record Manager := mkManager {
  config : Config
}.

(** [NewManager] creates a new device ID manager with the given
    configuration. *)
Definition NewManager (config : Config) : Manager :=
  let config :=
    if bool_decide (IDFileName config = "")
    then mkConfig (StorageDir config) DefaultIDFileName
    else config in
  mkManager config.

(** Permission arguments [0o700] and [0o600]. *)
Definition perm_0o700 : Z := 448.
Definition perm_0o600 : Z := 384.

(** ** The package: operations *)

(** [getSystemInfo] retrieves system-specific information based on the
    operating system. *)
Definition getSystemInfo : M (result string) :=
  goos ← sys.goos;
  let cmd :=
    if bool_decide (goos = "windows") then ["wmic"; "csproduct"; "get"; "UUID"]
    else if bool_decide (goos = "darwin")
         then ["ioreg"; "-d2"; "-c"; "IOPlatformExpertDevice"]
    else ["cat"; "/etc/machine-id"] in
  '(output, err) ← sys.Output cmd;
  match err with
  | Some e => mret ("", Some (Wrap "failed to get system info" e))
  | None => mret (output, None)
  end.

(** [GenerateDeviceID] creates a new device ID based on system
    information. *)
Definition GenerateDeviceID (m : Manager) : M (result string) :=
  '(info, err) ← getSystemInfo;
  match err with
  | Some e => mret ("", Some (Wrap "failed to generate device ID" e))
  | None =>
    let hash := sha256.Sum256 (bytes_of_string info) in
    mret (hex.EncodeToString hash, None)
  end.

(** [GetDeviceIDPath] returns the full path where the device ID file
    should be stored. *)
Definition GetDeviceIDPath (m : Manager) : M (result string) :=
  if negb (bool_decide (StorageDir (config m) = "")) then
    let basePath := StorageDir (config m) in
    mret (filepath.Join [basePath; IDFileName (config m)], None)
  else
    '(home, err) ← sys.UserHomeDir;
    match err with
    | Some e => mret ("", Some (Wrap "failed to get user home directory" e))
    | None =>
      let basePath := filepath.Join [home; ".parity"] in
      mret (filepath.Join [basePath; IDFileName (config m)], None)
    end.

(** [SaveDeviceID] stores the device ID in the configured location. *)
Definition SaveDeviceID (m : Manager) (deviceID : string) : M (option error) :=
  if negb (IsValidSHA256 deviceID) then
    mret (Some (New "invalid device ID format"))
  else
    '(path, err) ← GetDeviceIDPath m;
    match err with
    | Some e => mret (Some (Wrap "failed to get device ID path" e))
    | None =>
      (* Ensure directory exists *)
      let dir := filepath.Dir path in
      err ← sys.MkdirAll dir perm_0o700;
      match err with
      | Some e => mret (Some (Wrap "failed to create directory" e))
      | None =>
        err ← sys.WriteFile path deviceID perm_0o600;
        match err with
        | Some e => mret (Some (Wrap "failed to write device ID" e))
        | None => mret None
        end
      end
    end.

(** [VerifyDeviceID] checks for an existing device ID and generates a new
    one if needed. *)
Definition VerifyDeviceID (m : Manager) : M (result string) :=
  '(path, err) ← GetDeviceIDPath m;
  match err with
  | Some e => mret ("", Some (Wrap "failed to get device ID path" e))
  | None =>
    (* Check if device ID exists *)
    '(deviceID, err) ← sys.ReadFile path;
    match err with
    | Some e =>
      if os.IsNotExist e then
        (* Generate new device ID if it doesn't exist *)
        '(newID, err) ← GenerateDeviceID m;
        match err with
        | Some e => mret ("", Some (Wrap "failed to generate new device ID" e))
        | None =>
          err ← SaveDeviceID m newID;
          match err with
          | Some e => mret ("", Some (Wrap "failed to save new device ID" e))
          | None => mret (newID, None)
          end
        end
      else mret ("", Some (Wrap "failed to read device ID" e))
    | None =>
      (* Validate the stored device ID format *)
      let storedID := deviceID in
      if negb (IsValidSHA256 storedID) then
        (* If invalid format, generate a new one *)
        '(newID, err) ← GenerateDeviceID m;
        match err with
        | Some e => mret ("", Some (Wrap "failed to generate new device ID" e))
        | None =>
          err ← SaveDeviceID m newID;
          match err with
          | Some e => mret ("", Some (Wrap "failed to save new device ID" e))
          | None => mret (newID, None)
          end
        end
      else mret (storedID, None)
    end
  end.

(** ** Worlds to run the package in *)

(** A Linux machine: [/tmp/custom] is an empty directory, the machine
    id is [abc] and a newline, home is [/home/u]. *)
Definition linux_fs : gmap string os.node :=
  <["/" := os.Directory 493]> (<["/tmp" := os.Directory 511]>
  (<["/tmp/custom" := os.Directory 448]> ∅)).

Definition linux_output (argv : list string) : result string :=
  if bool_decide (argv = ["cat"; "/etc/machine-id"]) then ("abc" +:+ String "010" "", None)
  else ("", Some (ExecError "executable file not found in $PATH")).

Definition linux : World :=
  mkWorld "linux" ("/home/u", None) linux_output linux_fs [].

Definition custom : Manager := NewManager (mkConfig "/tmp/custom" "my-id").

(** The identifier of the machine [linux]. *)
Definition linux_id : string :=
  "edeaaff3f1774ad2888673770c6d64097e391bc362d7d6fb34982ddf0efd18cb".

(** Sixty-four zeros: a fingerprint. *)
Definition zeros64 : string :=
  "0000000000000000000000000000000000000000000000000000000000000000".

(** [linux] with the identifier file of [custom] holding [data] under
    the mode [perm]. *)
Definition linux_with (perm : Z) (data : string) : World :=
  mkWorld "linux" ("/home/u", None) linux_output
    (<["/tmp/custom/my-id" := os.File perm data]> linux_fs) [].

(** [linux] with a root directory that may not be written; a manager
    that stores under [/data], which is not there. *)
Definition linux_readonly : World :=
  mkWorld "linux" ("/home/u", None) linux_output (<["/" := os.Directory 365]> ∅) [].

Definition data : Manager := NewManager (mkConfig "/data" "").

(** A machine whose probe command fails. *)
Definition no_probe : World :=
  mkWorld "windows" ("/home/u", None)
    (fun _ => ("", Some (ExecError "executable file not found in %PATH%"))) linux_fs [].

(** Sixty-four times [A]. *)
Definition upper64 : string :=
  "AAAAAAAAAAAAAAAAAAAAAAAAAAAAAAAAAAAAAAAAAAAAAAAAAAAAAAAAAAAAAAAA".

(** * The vocabulary of the statements *)

(** ** Fingerprints *)

(** The bytes of a string, one [ascii] each. *)
Fixpoint chars (s : string) : list ascii :=
  match s with
  | EmptyString => []
  | String c s' => c :: chars s'
  end.

(** A byte in [[0-9a-f]]. *)
Definition lowerHex (c : ascii) : Prop :=
  byteZ "0" <= byteZ c <= byteZ "9" \/ byteZ "a" <= byteZ c <= byteZ "f".

(** The runes [r] that [for _, r := range s] goes through, in order
    (with [skip] bytes of the current rune still to pass). *)
Fixpoint runes_from (skip : nat) (s : string) : list Z :=
  match s with
  | EmptyString => []
  | String c s' =>
    match skip with
    | S k => runes_from k s'
    | O => let '(r, size) := utf8.next c s in r :: runes_from (size - 1) s'
    end
  end.

Definition runes (s : string) : list Z := runes_from 0 s.

(** A rune in [[0-9a-f]]. *)
Definition hexRune (r : Z) : Prop :=
  byteZ "0" <= r <= byteZ "9" \/ byteZ "a" <= r <= byteZ "f".

(** The identifier of a machine whose probe prints [info]. *)
Definition fingerprint (info : string) : string :=
  hex.EncodeToString (sha256.Sum256 (bytes_of_string info)).

(** ** Runs *)

(** The world after a call that made the system calls [evs] and left the
    file system [fs]. *)
Definition after (evs : list Event) (fs : gmap string os.node) (w : World) : World :=
  mkWorld (GOOS w) (home w) (output w) fs (trace w ++ evs).
Arguments after : simpl never.

(** The command [getSystemInfo] runs on the target [goos]. *)
Definition probe (goos : string) : list string :=
  if bool_decide (goos = "windows") then ["wmic"; "csproduct"; "get"; "UUID"]
  else if bool_decide (goos = "darwin")
       then ["ioreg"; "-d2"; "-c"; "IOPlatformExpertDevice"]
  else ["cat"; "/etc/machine-id"].

(** The system calls of a path resolution. *)
Definition path_events (m : Manager) : list Event :=
  if bool_decide (StorageDir (config m) = "") then [EvUserHomeDir] else [].

(** The recovery both branches of [VerifyDeviceID] run: generate, save,
    return the new identifier. *)
Definition regenerate (m : Manager) : M (result string) :=
  '(newID, err) ← GenerateDeviceID m;
  match err with
  | Some e => mret ("", Some (Wrap "failed to generate new device ID" e))
  | None =>
    err ← SaveDeviceID m newID;
    match err with
    | Some e => mret ("", Some (Wrap "failed to save new device ID" e))
    | None => mret (newID, None)
    end
  end.

(** The identifier file calls for a new identifier: the read reports it
    absent, or it reads and what it holds is not a fingerprint. *)
Definition needs_new (r : result string) : Prop :=
  match r with
  | (_, Some e) => os.IsNotExist e = true
  | (storedID, None) => IsValidSHA256 storedID = false
  end.



(** ** The error kinds of the design document *)

(** The design names four kinds of failure; the package tells them apart
    by the message it wraps the failure in. *)
Inductive ErrorKind := ProbeError | PathResolutionError | StorageError | InvalidFormatError.

Fixpoint kind (err : error) : option ErrorKind :=
  match err with
  | Wrap msg e =>
    if bool_decide (msg = "failed to get system info") then Some ProbeError
    else if bool_decide (msg = "failed to get user home directory") then Some PathResolutionError
    else if bool_decide (msg = "failed to create directory") then Some StorageError
    else if bool_decide (msg = "failed to write device ID") then Some StorageError
    else if bool_decide (msg = "failed to read device ID") then Some StorageError
    else kind e
  | New msg =>
    if bool_decide (msg = "invalid device ID format") then Some InvalidFormatError else None
  | _ => None
  end.

(** A call that returns no identifier and an error of the kind [k]. *)
Definition fails_with (k : ErrorKind) (r : result string) : Prop :=
  fst r = "" /\ exists e, snd r = Some e /\ kind e = Some k.

(** ** System calls a manager may make *)

(** The system calls of a manager [m] in a world [w]: asking for the home
    directory when it has no [StorageDir], the probe command of the
    target, a read of its identifier file, [MkdirAll] of the directory of
    that file with mode [0o700], and a write of a fingerprint to that
    file with mode [0o600]. *)
Definition allowed (m : Manager) (w : World) (ev : Event) : Prop :=
  match ev with
  | EvUserHomeDir => StorageDir (config m) = ""
  | EvCommand argv => argv = probe (GOOS w)
  | EvReadFile name => fst (GetDeviceIDPath m w) = (name, None)
  | EvMkdirAll dir perm =>
    perm = perm_0o700 /\
    exists path, fst (GetDeviceIDPath m w) = (path, None) /\ dir = filepath.Dir path
  | EvWriteFile name data perm =>
    perm = perm_0o600 /\ fst (GetDeviceIDPath m w) = (name, None) /\
    IsValidSHA256 data = true
  end.

Definition isCommand (ev : Event) : bool :=
  match ev with EvCommand _ => true | _ => false end.

Definition isWrite (ev : Event) : bool :=
  match ev with EvWriteFile _ _ _ => true | _ => false end.

Definition isMkdirAll (ev : Event) : bool :=
  match ev with EvMkdirAll _ _ => true | _ => false end.

Definition isReadFile (ev : Event) : bool :=
  match ev with EvReadFile _ => true | _ => false end.

(** The number of events of a kind in a list of events. *)
Definition count (f : Event -> bool) (evs : list Event) : nat :=
  length (List.filter f evs).

(** ** What a call may change in the file system *)


(** The world [w] for a user whose home directory lookup answers [h]. *)
Definition with_home (h : result string) (w : World) : World :=
  mkWorld (GOOS w) h (output w) (files w) (trace w).

(** ** More worlds and managers *)

(** The manager of the default location. *)
Definition default : Manager := NewManager (mkConfig "" "").

(** [linux] for a user without a home directory. *)
Definition homeless : World :=
  mkWorld "linux" ("", Some (New "$HOME is not defined")) linux_output linux_fs [].

(** A machine whose probe prints something and then fails. *)
Definition flaky : World :=
  mkWorld "darwin" ("/Users/u", None)
    (fun _ => ("IOPlatformUUID", Some (ExecError "exit status 1"))) linux_fs [].



(** * Proofs *)

(** ** Validation *)

Lemma byteZ_range c : 0 <= byteZ c < 256.
Proof.
  unfold byteZ. pose proof (N_ascii_bounded c). lia.
Qed.



(** What [decoderune] returns is never a rune below [runeSelf]. *)
Lemma decoderune_not_ascii s :
  fst (utf8.decoderune s) = utf8.runeError \/ utf8.rune1Max < fst (utf8.decoderune s).
Proof.
  unfold utf8.decoderune.
  repeat (case_match; simpl; auto);
    repeat match goal with
           | H : _ && _ = true |- _ => apply andb_prop in H; destruct H
           end;
    right;
    match goal with
    | H : (_ <? _) = true |- _ => apply Z.ltb_lt in H; revert H
    end; unfold utf8.rune1Max, utf8.rune2Max, utf8.rune3Max; lia.
Qed.

(** One turn of the loop of [IsValidSHA256] at the start of a rune: the
    loop goes on exactly when the byte there is in [[0-9a-f]], and then
    the next rune starts at the next byte. *)
Lemma IsValidSHA256_range_cons c s :
  (lowerHex c /\ IsValidSHA256_range 0 (String c s) = IsValidSHA256_range 0 s)
  \/ (~ lowerHex c /\ IsValidSHA256_range 0 (String c s) = false).
Proof.
  pose proof (byteZ_range c) as Hc.
  cbn [IsValidSHA256_range]. unfold utf8.next.
  destruct (byteZ c <? utf8.runeSelf) eqn:Hlt.
  - apply Z.ltb_lt in Hlt.
    destruct (negb _) eqn:Hhex.
    + right. split; [|reflexivity]. unfold lowerHex. intros Hin.
      apply negb_true_iff in Hhex. apply orb_false_iff in Hhex.
      destruct Hhex as [H1 H2].
      apply andb_false_iff in H1. apply andb_false_iff in H2.
      rewrite !Z.leb_gt in H1, H2. lia.
    + left. split; [|reflexivity]. unfold lowerHex.
      apply negb_false_iff in Hhex. apply orb_true_iff in Hhex.
      rewrite !andb_true_iff, !Z.leb_le in Hhex. lia.
  - apply Z.ltb_ge in Hlt. unfold utf8.runeSelf in Hlt.
    right. split.
    + unfold lowerHex. change (byteZ "9") with 57. change (byteZ "f") with 102. lia.
    + destruct (utf8.decoderune (String c s)) as [r size] eqn:Hd.
      pose proof (decoderune_not_ascii (String c s)) as Hr. rewrite Hd in Hr.
      simpl in Hr. unfold utf8.runeError, utf8.rune1Max in Hr.
      change (byteZ "9") with 57. change (byteZ "f") with 102.
      change (byteZ "0") with 48. change (byteZ "a") with 97.
      destruct (negb _) eqn:Hhex; [reflexivity|].
      apply negb_false_iff in Hhex. apply orb_true_iff in Hhex.
      rewrite !andb_true_iff, !Z.leb_le in Hhex. lia.
Qed.

Lemma IsValidSHA256_range_spec s :
  IsValidSHA256_range 0 s = true <-> Forall lowerHex (chars s).
Proof.
  induction s as [|c s IH].
  - simpl. split; [constructor | reflexivity].
  - destruct (IsValidSHA256_range_cons c s) as [[Hc Heq]|[Hc Heq]]; rewrite Heq.
    + rewrite IH. simpl. split.
      * intros H. constructor; assumption.
      * intros H. inversion H; assumption.
    + simpl. split; [discriminate|].
      intros H. inversion H; contradiction.
Qed.

(** The characterisation of a fingerprint: 64 bytes, each in [[0-9a-f]]. *)
Lemma IsValidSHA256_iff s :
  IsValidSHA256 s = true <->
  String.length s = 64%nat /\ Forall lowerHex (chars s).
Proof.
  unfold IsValidSHA256.
  destruct (String.length s =? 64)%nat eqn:Hlen; simpl.
  - apply Nat.eqb_eq in Hlen. rewrite IsValidSHA256_range_spec. tauto.
  - apply Nat.eqb_neq in Hlen. split; [discriminate | tauto].
Qed.

Lemma IsValidSHA256_false_iff s :
  IsValidSHA256 s = false <->
  String.length s <> 64%nat \/ Exists (fun c => ~ lowerHex c) (chars s).
Proof.
  rewrite <- not_true_iff_false, IsValidSHA256_iff.
  destruct (decide (String.length s = 64%nat)) as [Hl|Hl]; [|tauto].
  split.
  - intros H. right. apply not_Forall_Exists.
    + intros c. unfold lowerHex.
      destruct (decide (byteZ "0" <= byteZ c <= byteZ "9" \/
                        byteZ "a" <= byteZ c <= byteZ "f")); [left|right]; assumption.
    + tauto.
  - intros [H|H] [_ HF]; [contradiction|].
    apply Exists_exists in H. destruct H as (c & Hin & Hc).
    rewrite Forall_forall in HF. apply Hc, HF, Hin.
Qed.

(** The same in runes: a rune in the range is one byte, and a byte
    outside it starts a rune outside it. *)
Lemma runes_cons c s :
  (lowerHex c /\ runes (String c s) = byteZ c :: runes s)
  \/ (~ lowerHex c /\ exists r rest, runes (String c s) = r :: rest /\ ~ hexRune r).
Proof.
  pose proof (byteZ_range c) as Hc.
  unfold runes. cbn [runes_from]. unfold utf8.next.
  destruct (byteZ c <? utf8.runeSelf) eqn:Hlt.
  - destruct (decide (byteZ "0" <= byteZ c <= byteZ "9" \/
                      byteZ "a" <= byteZ c <= byteZ "f")) as [Hin|Hout].
    + left. split; [exact Hin | reflexivity].
    + right. split; [exact Hout|]. eexists _, _. split; [reflexivity | exact Hout].
  - apply Z.ltb_ge in Hlt. unfold utf8.runeSelf in Hlt.
    assert (Hout : ~ lowerHex c).
    { unfold lowerHex. change (byteZ "9") with 57. change (byteZ "f") with 102. lia. }
    right. split; [exact Hout|].
    destruct (utf8.decoderune (String c s)) as [r size] eqn:Hd.
    pose proof (decoderune_not_ascii (String c s)) as Hr. rewrite Hd in Hr.
    simpl in Hr. unfold utf8.runeError, utf8.rune1Max in Hr.
    eexists _, _. split; [reflexivity|]. unfold hexRune.
    change (byteZ "9") with 57. change (byteZ "f") with 102. lia.
Qed.

Lemma runes_spec s :
  Forall hexRune (runes s) <-> Forall lowerHex (chars s).
Proof.
  induction s as [|c s IH]; [split; constructor|].
  destruct (runes_cons c s) as [[Hc Heq]|[Hc (r & rest & Heq & Hr)]]; rewrite Heq; simpl.
  - split; intros H; inversion H; subst; constructor; try tauto; assumption.
  - split; intros H; inversion H; subst; contradiction.
Qed.

Lemma runes_lowerHex s :
  Forall lowerHex (chars s) -> length (runes s) = String.length s.
Proof.
  induction s as [|c s IH]; [reflexivity|]. simpl. intros H. inversion H; subst.
  destruct (runes_cons c s) as [[_ Heq]|[Hc _]]; [|contradiction].
  rewrite Heq. simpl. now rewrite IH.
Qed.

(** ** Hashing and hex encoding *)

Lemma byte_range x : 0 <= sha256.byte x < 256.
Proof. unfold sha256.byte. apply Z.mod_pos_bound. lia. Qed.

Lemma be32_bytes v : Forall (fun b => 0 <= b < 256) (sha256.be32 v).
Proof. unfold sha256.be32. repeat constructor; apply byte_range. Qed.

(** [Sum256] returns a [[32]byte]. *)
Lemma Sum256_length data : length (sha256.Sum256 data) = 32%nat.
Proof. reflexivity. Qed.

Lemma Sum256_bytes data : Forall (fun b => 0 <= b < 256) (sha256.Sum256 data).
Proof.
  unfold sha256.Sum256. cbv zeta.
  repeat (apply Forall_app; split); apply be32_bytes.
Qed.

(** Every entry of [hextable] is a lower-case hex digit. *)
Lemma hextable_lowerHex i : 0 <= i < 16 -> lowerHex (index hex.hextable i).
Proof.
  intros Hi.
  assert (Hn : (Z.to_nat i < 16)%nat) by lia.
  unfold index. generalize dependent (Z.to_nat i). clear Hi. intros n Hn.
  do 16 (destruct n as [|n]; [unfold lowerHex; vm_compute; intuition discriminate|]).
  lia.
Qed.

Lemma EncodeToString_length src :
  String.length (hex.EncodeToString src) = (2 * length src)%nat.
Proof.
  induction src as [|v src IH]; simpl; [reflexivity|].
  rewrite IH. lia.
Qed.

Lemma EncodeToString_lowerHex src :
  Forall (fun b => 0 <= b < 256) src ->
  Forall lowerHex (chars (hex.EncodeToString src)).
Proof.
  induction 1 as [|v src Hv _ IH]; simpl; [constructor|].
  constructor; [|constructor; [|exact IH]].
  - apply hextable_lowerHex. rewrite Z.shiftr_div_pow2 by lia.
    change (2 ^ 4) with 16. split.
    + apply Z.div_pos; lia.
    + apply Z.div_lt_upper_bound; lia.
  - apply hextable_lowerHex.
    change 0x0f with (Z.ones 4). rewrite Z.land_ones by lia.
    apply Z.mod_pos_bound. lia.
Qed.

(** The hex encoding of a SHA-256 digest is a fingerprint. *)
Lemma digest_valid data :
  IsValidSHA256 (hex.EncodeToString (sha256.Sum256 data)) = true.
Proof.
  apply IsValidSHA256_iff. split.
  - rewrite EncodeToString_length, Sum256_length. reflexivity.
  - apply EncodeToString_lowerHex, Sum256_bytes.
Qed.

(** [[]byte(s)] keeps every byte of [s]: equal bytes, equal strings. *)
Lemma byteZ_inj c1 c2 : byteZ c1 = byteZ c2 -> c1 = c2.
Proof.
  unfold byteZ. intros H. apply N2Z.inj in H.
  rewrite <- (ascii_N_embedding c1), <- (ascii_N_embedding c2). congruence.
Qed.

Lemma bytes_of_string_inj s1 s2 :
  bytes_of_string s1 = bytes_of_string s2 -> s1 = s2.
Proof.
  revert s2. induction s1 as [|c1 s1 IH]; intros [|c2 s2]; simpl; try discriminate.
  - reflexivity.
  - intros H. injection H as Hc Hs. f_equal; [apply byteZ_inj, Hc | apply IH, Hs].
Qed.

(** ** Test vectors *)

(** [Sum256] on the test vectors of FIPS 180-4. *)
Example Sum256_empty :
  fingerprint "" = "e3b0c44298fc1c149afbf4c8996fb92427ae41e4649b934ca495991b7852b855".
Proof. vm_compute. reflexivity. Qed.

Example Sum256_abc :
  fingerprint "abc" = "ba7816bf8f01cfea414140de5dae2223b00361a396177a9cb410ff61f20015ad".
Proof. vm_compute. reflexivity. Qed.

Example Sum256_two_blocks :
  fingerprint "abcdbcdecdefdefgefghfghighijhijkijkljklmklmnlmnomnopnopq" =
  "248d6a61d20638b8e5c026930c3e6039a33ce45964ff2167f6ecedd419db06c1".
Proof. vm_compute. reflexivity. Qed.

(** No trimming, no case folding: a trailing newline or another case
    gives another identifier. *)
Example fingerprint_raw :
  fingerprint ("abc" +:+ String "010" "") = linux_id /\
  fingerprint ("abc" +:+ String "010" "") <> fingerprint "abc" /\
  fingerprint "ABC" <> fingerprint "abc".
Proof. vm_compute. repeat split; discriminate. Qed.

(** [Clean], [Join] and [Dir] on paths of the package and on cases of the
    test table of [path/filepath]. *)
Example Join_custom : filepath.Join ["/tmp/custom"; "my-id"] = "/tmp/custom/my-id".
Proof. reflexivity. Qed.

Example Join_cleans :
  filepath.Join ["/tmp/custom/"; "my-id"] = "/tmp/custom/my-id" /\
  filepath.Join ["/tmp/../custom/./x//"; "../my-id"] = "/custom/my-id" /\
  filepath.Join [""; "a"] = "a" /\
  filepath.Join ["a"; ""] = "a".
Proof. repeat split. Qed.

Example Clean_table :
  filepath.Clean "" = "." /\
  filepath.Clean "abc//./../def" = "def" /\
  filepath.Clean "abc/def/../../.." = ".." /\
  filepath.Clean "/abc/def/../../.." = "/" /\
  filepath.Clean "../../abc/.." = "../..".
Proof. repeat split. Qed.

Example Dir_table :
  filepath.Dir "/tmp/custom/my-id" = "/tmp/custom" /\
  filepath.Dir "/tmp" = "/" /\
  filepath.Dir "/" = "/" /\
  filepath.Dir "my-id" = "." /\
  filepath.Dir "" = ".".
Proof. repeat split. Qed.

(** A rune of more than one byte, an ill-formed byte and an upper-case
    digit are not hex digits, whatever the length in bytes. *)
Example IsValidSHA256_not_ascii :
  let e_acute := String "195" (String "169" "") in
  let bad := String "255" "" in
  let zeros62 := "00000000000000000000000000000000000000000000000000000000000000" in
  runes e_acute = [233] /\ runes bad = [utf8.runeError] /\
  String.length (zeros62 +:+ e_acute) = 64%nat /\
  IsValidSHA256 (zeros62 +:+ e_acute) = false /\
  IsValidSHA256 (zeros62 +:+ "0" +:+ bad) = false /\
  IsValidSHA256 (zeros62 +:+ "0A") = false.
Proof. vm_compute. repeat split. Qed.

(** ** Runs of the operations *)

Lemma record_after ev fs w : record ev fs w = after [ev] fs w.
Proof. reflexivity. Qed.

Lemma after_after evs1 fs1 evs2 fs2 w :
  after evs2 fs2 (after evs1 fs1 w) = after (evs1 ++ evs2) fs2 w.
Proof. unfold after. simpl. now rewrite app_assoc. Qed.

Lemma after_nil w : after [] (files w) w = w.
Proof. destruct w. unfold after. simpl. now rewrite app_nil_r. Qed.

Lemma files_after evs fs w : files (after evs fs w) = fs.
Proof. reflexivity. Qed.

Lemma trace_after evs fs w : trace (after evs fs w) = trace w ++ evs.
Proof. reflexivity. Qed.

Ltac run := unfold mbind, M_bind, mret, M_ret; simpl.

Lemma getSystemInfo_run w :
  getSystemInfo w =
  (match output w (probe (GOOS w)) with
   | (_, Some e) => ("", Some (Wrap "failed to get system info" e))
   | (out, None) => (out, None)
   end, after [EvCommand (probe (GOOS w))] (files w) w).
Proof.
  unfold getSystemInfo, sys.goos, sys.Output. run. fold (probe (GOOS w)).
  rewrite record_after.
  destruct (output w (probe (GOOS w))) as [out [e|]]; reflexivity.
Qed.

Lemma GenerateDeviceID_run m w :
  GenerateDeviceID m w =
  (match output w (probe (GOOS w)) with
   | (_, Some e) =>
     ("", Some (Wrap "failed to generate device ID" (Wrap "failed to get system info" e)))
   | (info, None) => (fingerprint info, None)
   end, after [EvCommand (probe (GOOS w))] (files w) w).
Proof.
  unfold GenerateDeviceID. run. rewrite getSystemInfo_run.
  destruct (output w (probe (GOOS w))) as [out [e|]]; reflexivity.
Qed.

(** Path resolution reads the configuration and the home directory, and
    changes nothing but the trace. *)
Lemma GetDeviceIDPath_run m w :
  GetDeviceIDPath m w =
  (fst (GetDeviceIDPath m w), after (path_events m) (files w) w).
Proof.
  unfold GetDeviceIDPath, path_events, sys.UserHomeDir. run.
  destruct (bool_decide (StorageDir (config m) = "")); simpl.
  - rewrite record_after. destruct (home w) as [h [e|]]; reflexivity.
  - now rewrite after_nil.
Qed.

Lemma GetDeviceIDPath_after m evs fs w :
  fst (GetDeviceIDPath m (after evs fs w)) = fst (GetDeviceIDPath m w).
Proof.
  unfold GetDeviceIDPath, sys.UserHomeDir. run.
  destruct (bool_decide (StorageDir (config m) = "")); simpl; [|reflexivity].
  destruct (home w) as [h [e|]]; reflexivity.
Qed.

(** A run of [SaveDeviceID] on a fingerprint, once the path resolves. *)
Lemma SaveDeviceID_run m w path deviceID :
  IsValidSHA256 deviceID = true ->
  fst (GetDeviceIDPath m w) = (path, None) ->
  let dir := filepath.Dir path in
  let evs := path_events m ++ [EvMkdirAll dir perm_0o700] in
  SaveDeviceID m deviceID w =
  match os.mkdirAll (S (String.length dir)) (files w) dir perm_0o700 with
  | (fs1, Some e) => (Some (Wrap "failed to create directory" e), after evs fs1 w)
  | (fs1, None) =>
    match os.writeFile fs1 path deviceID perm_0o600 with
    | (fs2, Some e) =>
      (Some (Wrap "failed to write device ID" e),
       after (evs ++ [EvWriteFile path deviceID perm_0o600]) fs2 w)
    | (fs2, None) =>
      (None, after (evs ++ [EvWriteFile path deviceID perm_0o600]) fs2 w)
    end
  end.
Proof.
  intros Hvalid Hpath dir evs. unfold SaveDeviceID. rewrite Hvalid. run.
  rewrite GetDeviceIDPath_run, Hpath. fold dir.
  unfold sys.MkdirAll, sys.WriteFile. rewrite files_after.
  destruct (os.mkdirAll _ _ _ _) as [fs1 [e|]];
    rewrite record_after, after_after; [reflexivity|].
  rewrite files_after.
  destruct (os.writeFile _ _ _ _) as [fs2 [e|]];
    now rewrite record_after, after_after.
Qed.

(** [VerifyDeviceID] after its path resolved: one read, then the stored
    identifier, the recovery, or the read error. *)
Lemma VerifyDeviceID_run m w path :
  fst (GetDeviceIDPath m w) = (path, None) ->
  let w1 := after (path_events m ++ [EvReadFile path]) (files w) w in
  VerifyDeviceID m w =
  match os.readFile (files w) path with
  | (_, Some e) =>
    if os.IsNotExist e then regenerate m w1
    else (("", Some (Wrap "failed to read device ID" e)), w1)
  | (storedID, None) =>
    if IsValidSHA256 storedID then ((storedID, None), w1)
    else regenerate m w1
  end.
Proof.
  intros Hpath w1. unfold VerifyDeviceID. run.
  rewrite GetDeviceIDPath_run, Hpath.
  unfold sys.ReadFile. rewrite files_after, record_after, after_after. fold w1.
  destruct (os.readFile (files w) path) as [deviceID [e|]].
  - destruct (os.IsNotExist e); reflexivity.
  - destruct (IsValidSHA256 deviceID); reflexivity.
Qed.

(** A run of the recovery in a world where the path resolves. *)
Lemma regenerate_run m w path :
  fst (GetDeviceIDPath m w) = (path, None) ->
  let cmd := probe (GOOS w) in
  let dir := filepath.Dir path in
  let evs := [EvCommand cmd] ++ path_events m ++ [EvMkdirAll dir perm_0o700] in
  regenerate m w =
  match output w cmd with
  | (_, Some e) =>
    (("", Some (Wrap "failed to generate new device ID"
                 (Wrap "failed to generate device ID"
                   (Wrap "failed to get system info" e)))),
     after [EvCommand cmd] (files w) w)
  | (info, None) =>
    let newID := fingerprint info in
    match os.mkdirAll (S (String.length dir)) (files w) dir perm_0o700 with
    | (fs1, Some e) =>
      (("", Some (Wrap "failed to save new device ID"
                   (Wrap "failed to create directory" e))),
       after evs fs1 w)
    | (fs1, None) =>
      match os.writeFile fs1 path newID perm_0o600 with
      | (fs2, Some e) =>
        (("", Some (Wrap "failed to save new device ID"
                     (Wrap "failed to write device ID" e))),
         after (evs ++ [EvWriteFile path newID perm_0o600]) fs2 w)
      | (fs2, None) =>
        ((newID, None), after (evs ++ [EvWriteFile path newID perm_0o600]) fs2 w)
      end
    end
  end.
Proof.
  intros Hpath cmd dir evs. unfold regenerate. run.
  rewrite GenerateDeviceID_run. fold cmd.
  destruct (output w cmd) as [info [e|]]; [reflexivity|].
  rewrite (SaveDeviceID_run m _ path).
  - rewrite files_after. fold dir.
    destruct (os.mkdirAll _ _ _ _) as [fs1 [e|]].
    + now rewrite after_after.
    + destruct (os.writeFile _ _ _ _) as [fs2 [e|]];
        rewrite after_after; unfold evs; now rewrite <- !app_assoc.
  - apply digest_valid.
  - now rewrite GetDeviceIDPath_after.
Qed.

(** ** The file system *)




(** After a successful [WriteFile] the file holds the data, under the
    mode it had or, when it was created, under the mode asked for. *)
Lemma writeFile_ok fs name data perm fs2 :
  os.writeFile fs name data perm = (fs2, None) ->
  exists mode,
    fs2 = <[name := os.File mode data]> fs /\
    (fs !! name = None /\ mode = perm
     \/ exists old, fs !! name = Some (os.File mode old) /\ os.writable mode = true).
Proof.
  unfold os.writeFile. intros H.
  destruct (os.dirErrno fs name); [discriminate|].
  destruct (fs !! name) as [[mode old|]|] eqn:Hname.
  - destruct (os.writable mode) eqn:Hw; [|discriminate].
    injection H as <-. exists mode. split; [reflexivity|]. right. eauto.
  - discriminate.
  - destruct (os.createErrno fs name); [discriminate|].
    injection H as <-. exists perm. split; [reflexivity|]. now left.
Qed.


(** A failed system call leaves no file changed. *)
Lemma writeFile_err fs name data perm fs2 e :
  os.writeFile fs name data perm = (fs2, Some e) -> fs2 = fs.
Proof.
  unfold os.writeFile. intros H.
  destruct (os.dirErrno fs name); [now injection H as <- _|].
  destruct (fs !! name) as [[mode old|]|].
  - destruct (os.writable mode); [discriminate | now injection H as <- _].
  - now injection H as <- _.
  - destruct (os.createErrno fs name); [now injection H as <- _ | discriminate].
Qed.




(** ** Properties of the package *)

(** C4. [IsValidSHA256 s] is true exactly when [s] has 64 bytes and each
    is in [[0-9a-f]] (which is to say: the [range] loop finds 64 runes in
    [s], each in [[0-9a-f]]): false for any other length, false for a string of
    64 bytes with a byte outside the range (an upper-case [A]-[F] is
    outside), true for 64 zeros. *)
Theorem IsValidSHA256_spec :
  (forall s, IsValidSHA256 s = true <->
             String.length s = 64%nat /\ Forall lowerHex (chars s)) /\
  (forall s, IsValidSHA256 s = true <->
             length (runes s) = 64%nat /\ Forall hexRune (runes s)) /\
  (forall s, String.length s <> 64%nat -> IsValidSHA256 s = false) /\
  (forall s c, String.length s = 64%nat -> In c (chars s) -> ~ lowerHex c ->
               IsValidSHA256 s = false) /\
  (forall c, byteZ "A" <= byteZ c <= byteZ "F" -> ~ lowerHex c) /\
  IsValidSHA256 zeros64 = true.
Proof.
  split; [exact IsValidSHA256_iff|].
  split; [|split; [|split; [|split]]].
  - intros s. rewrite IsValidSHA256_iff, runes_spec. split; intros [Hlen Hall].
    + now rewrite runes_lowerHex.
    + now rewrite <- runes_lowerHex.
  - intros s Hlen. apply IsValidSHA256_false_iff. now left.
  - intros s c _ Hin Hc. apply IsValidSHA256_false_iff. right.
    apply Exists_exists. exists c. split; [|exact Hc].
    apply list_elem_of_In, Hin.
  - intros c. unfold lowerHex.
    change (byteZ "A") with 65. change (byteZ "F") with 70.
    change (byteZ "0") with 48. change (byteZ "9") with 57.
    change (byteZ "a") with 97. change (byteZ "f") with 102. lia.
  - reflexivity.
Qed.

(** C5. [GenerateDeviceID] returns the hex encoding of the SHA-256 hash
    of the bytes the probe printed, taken as they are: when the probe
    prints [info] the result is [EncodeToString (Sum256 ([]byte info))];
    whatever it returns without error has 64 bytes, all lower-case hex,
    and passes [IsValidSHA256]; the result is a function of the probe's
    answer alone; and [[]byte(info)] loses nothing of [info]. *)
Theorem GenerateDeviceID_spec (m : Manager) (w : World) :
  (forall info, output w (probe (GOOS w)) = (info, None) ->
     GenerateDeviceID m w =
     ((hex.EncodeToString (sha256.Sum256 (bytes_of_string info)), None),
      after [EvCommand (probe (GOOS w))] (files w) w)) /\
  (forall id w', GenerateDeviceID m w = ((id, None), w') ->
     String.length id = 64%nat /\ Forall lowerHex (chars id) /\
     IsValidSHA256 id = true) /\
  (forall m' w', output w' (probe (GOOS w')) = output w (probe (GOOS w)) ->
     fst (GenerateDeviceID m' w') = fst (GenerateDeviceID m w)) /\
  (forall info info', bytes_of_string info = bytes_of_string info' -> info = info').
Proof.
  split; [|split; [|split]].
  - intros info Hout. rewrite GenerateDeviceID_run, Hout. reflexivity.
  - intros id w'. rewrite GenerateDeviceID_run.
    destruct (output w (probe (GOOS w))) as [info [e|]]; [discriminate|].
    intros H. injection H as <- _.
    assert (Hv := digest_valid (bytes_of_string info)).
    split; [|split]; [apply IsValidSHA256_iff, Hv .. | exact Hv].
  - intros m' w' Hout. rewrite !GenerateDeviceID_run, Hout. reflexivity.
  - exact bytes_of_string_inj.
Qed.

(** The probe of [linux] prints [abc] and a newline; its identifier is the
    digest of those four bytes. *)
Lemma GenerateDeviceID_linux :
  output linux (probe (GOOS linux)) = ("abc" +:+ String "010" "", None) /\
  GenerateDeviceID custom linux =
  ((linux_id, None), after [EvCommand ["cat"; "/etc/machine-id"]] (files linux) linux).
Proof.
  split; [reflexivity|].
  destruct (GenerateDeviceID_spec custom linux) as [H _].
  exact (H _ eq_refl).
Defined.

(** C9. The result of [GenerateDeviceID] does not depend on the
    configuration of the manager: two managers built from any two
    configurations return the same result in the same world, and the same
    identifier in any two worlds whose probes answer alike; the call runs
    the probe command and nothing else (no path resolution, no access to
    the file system). *)
Theorem GenerateDeviceID_config_independent (c1 c2 : Config) (w : World) :
  GenerateDeviceID (NewManager c1) w = GenerateDeviceID (NewManager c2) w /\
  (forall w2, output w2 (probe (GOOS w2)) = output w (probe (GOOS w)) ->
     fst (GenerateDeviceID (NewManager c2) w2) = fst (GenerateDeviceID (NewManager c1) w)) /\
  files (snd (GenerateDeviceID (NewManager c1) w)) = files w /\
  trace (snd (GenerateDeviceID (NewManager c1) w)) = trace w ++ [EvCommand (probe (GOOS w))].
Proof.
  rewrite !GenerateDeviceID_run. split; [reflexivity|].
  split; [|split; reflexivity].
  intros w2 Hout. rewrite GenerateDeviceID_run, Hout. reflexivity.
Qed.

(** C6. [SaveDeviceID] on a string that is not a fingerprint returns the
    error "invalid device ID format" and leaves the world as it was: no
    system call is made, no file or directory is created or changed. *)
Theorem SaveDeviceID_rejects (m : Manager) (deviceID : string) (w : World) :
  IsValidSHA256 deviceID = false ->
  SaveDeviceID m deviceID w = (Some (New "invalid device ID format"), w) /\
  kind (New "invalid device ID format") = Some InvalidFormatError.
Proof.
  intros Hinvalid. unfold SaveDeviceID. rewrite Hinvalid. split; reflexivity.
Qed.

Lemma SaveDeviceID_rejects_abc :
  IsValidSHA256 "abc" = false /\
  SaveDeviceID custom "abc" linux = (Some (New "invalid device ID format"), linux).
Proof.
  split; [reflexivity|].
  exact (proj1 (SaveDeviceID_rejects custom "abc" linux eq_refl)).
Defined.

(** C7. [GetDeviceIDPath] of a manager built by [NewManager]: with a
    [StorageDir] it is [Join(StorageDir, name)], where [name] is
    [IDFileName] or, when that was empty, [.device_id]; without one it is
    [Join(Join(home, ".parity"), name)] when the home directory is known;
    it fails, with the error of [UserHomeDir] wrapped in "failed to get
    user home directory", exactly when there is no [StorageDir] and the
    home directory is not known. *)
Theorem GetDeviceIDPath_spec (c : Config) (w : World) :
  let m := NewManager c in
  let name := if bool_decide (IDFileName c = "") then ".device_id" else IDFileName c in
  (StorageDir c <> "" ->
     GetDeviceIDPath m w = ((filepath.Join [StorageDir c; name], None), w)) /\
  (forall h, StorageDir c = "" -> home w = (h, None) ->
     GetDeviceIDPath m w =
     ((filepath.Join [filepath.Join [h; ".parity"]; name], None),
      after [EvUserHomeDir] (files w) w)) /\
  (forall h e, StorageDir c = "" -> home w = (h, Some e) ->
     GetDeviceIDPath m w =
     (("", Some (Wrap "failed to get user home directory" e)),
      after [EvUserHomeDir] (files w) w) /\
     kind (Wrap "failed to get user home directory" e) = Some PathResolutionError) /\
  (snd (fst (GetDeviceIDPath m w)) <> None <->
   StorageDir c = "" /\ snd (home w) <> None).
Proof.
  intros m name.
  assert (Hdir : StorageDir (config m) = StorageDir c).
  { unfold m, NewManager. simpl. now destruct (bool_decide (IDFileName c = "")). }
  assert (Hname : IDFileName (config m) = name).
  { unfold m, name, NewManager. simpl. now destruct (bool_decide (IDFileName c = "")). }
  clearbody m name. unfold GetDeviceIDPath, sys.UserHomeDir.
  rewrite Hdir, Hname. run.
  split; [|split; [|split]].
  - intros Hset. now rewrite bool_decide_eq_false_2.
  - intros h Hempty Hhome. rewrite bool_decide_eq_true_2 by assumption.
    simpl. now rewrite Hhome.
  - intros h e Hempty Hhome. rewrite bool_decide_eq_true_2 by assumption.
    simpl. now rewrite Hhome.
  - destruct (decide (StorageDir c = "")) as [Hempty|Hset].
    + rewrite bool_decide_eq_true_2 by assumption. simpl.
      destruct (home w) as [h [e|]]; simpl; split; try tauto; intros _; try split; congruence.
    + rewrite bool_decide_eq_false_2 by assumption. simpl. tauto.
Qed.

(** The path of the manager [custom] is [/tmp/custom/my-id]; with an empty
    configuration it is [.device_id] in [.parity] under the home. *)
Lemma GetDeviceIDPath_custom :
  GetDeviceIDPath (NewManager (mkConfig "/tmp/custom" "my-id")) linux =
    (("/tmp/custom/my-id", None), linux) /\
  fst (GetDeviceIDPath (NewManager (mkConfig "" "")) linux) =
    ("/home/u/.parity/.device_id", None).
Proof.
  split.
  - refine (proj1 (GetDeviceIDPath_spec (mkConfig "/tmp/custom" "my-id") linux) _).
    discriminate.
  - pose proof (proj1 (proj2 (GetDeviceIDPath_spec (mkConfig "" "") linux))
                  "/home/u" eq_refl eq_refl) as H.
    cbv zeta in H. now rewrite H.
Defined.

(** C2. When the identifier file reads and holds a fingerprint,
    [VerifyDeviceID] returns what was read, and the call consists of the
    path resolution and that one read: no command is run, nothing is
    created or written, the file system is the same afterwards and the
    file still holds the identifier. *)
Theorem VerifyDeviceID_valid (m : Manager) (w : World) (path storedID : string) :
  fst (GetDeviceIDPath m w) = (path, None) ->
  os.readFile (files w) path = (storedID, None) ->
  IsValidSHA256 storedID = true ->
  VerifyDeviceID m w =
    ((storedID, None), after (path_events m ++ [EvReadFile path]) (files w) w) /\
  Forall (fun ev => ev = EvUserHomeDir \/ ev = EvReadFile path)
         (path_events m ++ [EvReadFile path]) /\
  files (snd (VerifyDeviceID m w)) = files w /\
  os.readFile (files (snd (VerifyDeviceID m w))) path = (storedID, None).
Proof.
  intros Hpath Hread Hvalid.
  rewrite (VerifyDeviceID_run m w path Hpath), Hread, Hvalid.
  split; [reflexivity|]. split; [|split; [reflexivity | exact Hread]].
  apply Forall_app. split; [|repeat constructor; now right].
  unfold path_events. destruct (bool_decide _); repeat constructor; now left.
Qed.

Lemma VerifyDeviceID_valid_zeros :
  let w := linux_with perm_0o600 zeros64 in
  fst (GetDeviceIDPath custom w) = ("/tmp/custom/my-id", None) /\
  os.readFile (files w) "/tmp/custom/my-id" = (zeros64, None) /\
  IsValidSHA256 zeros64 = true /\
  VerifyDeviceID custom w =
    ((zeros64, None), after [EvReadFile "/tmp/custom/my-id"] (files w) w).
Proof.
  intros w.
  split; [reflexivity|]. split; [vm_compute; reflexivity|]. split; [reflexivity|].
  exact (proj1 (VerifyDeviceID_valid custom w "/tmp/custom/my-id" zeros64
                  eq_refl eq_refl eq_refl)).
Defined.

(** C3. When the read of the identifier file fails with an error that is
    not "file absent", [VerifyDeviceID] returns no identifier and that
    error, wrapped in "failed to read device ID"; the call consists of
    the path resolution and the read: no command is run and nothing is
    created or written. *)
Theorem VerifyDeviceID_read_error (m : Manager) (w : World) (path s : string) (e : error) :
  fst (GetDeviceIDPath m w) = (path, None) ->
  os.readFile (files w) path = (s, Some e) ->
  os.IsNotExist e = false ->
  VerifyDeviceID m w =
    (("", Some (Wrap "failed to read device ID" e)),
     after (path_events m ++ [EvReadFile path]) (files w) w) /\
  cause (Wrap "failed to read device ID" e) = cause e /\
  kind (Wrap "failed to read device ID" e) = Some StorageError /\
  Forall (fun ev => ev = EvUserHomeDir \/ ev = EvReadFile path)
         (path_events m ++ [EvReadFile path]) /\
  files (snd (VerifyDeviceID m w)) = files w.
Proof.
  intros Hpath Hread Hother.
  rewrite (VerifyDeviceID_run m w path Hpath), Hread, Hother.
  split; [reflexivity|]. split; [reflexivity|]. split; [reflexivity|].
  split; [|reflexivity].
  apply Forall_app. split; [|repeat constructor; now right].
  unfold path_events. destruct (bool_decide _); repeat constructor; now left.
Qed.

(** Permission denied: the identifier file is there and nobody may read it. *)
Lemma VerifyDeviceID_permission_denied :
  let w := linux_with 0 zeros64 in
  let e := PathError "open" "/tmp/custom/my-id" EACCES in
  os.readFile (files w) "/tmp/custom/my-id" = ("", Some e) /\
  os.IsNotExist e = false /\
  VerifyDeviceID custom w =
    (("", Some (Wrap "failed to read device ID" e)),
     after [EvReadFile "/tmp/custom/my-id"] (files w) w).
Proof.
  intros w e.
  split; [vm_compute; reflexivity|]. split; [reflexivity|].
  exact (proj1 (VerifyDeviceID_read_error custom w "/tmp/custom/my-id" "" e
                  eq_refl eq_refl eq_refl)).
Defined.

Lemma VerifyDeviceID_needs_new m w path :
  fst (GetDeviceIDPath m w) = (path, None) ->
  needs_new (os.readFile (files w) path) ->
  VerifyDeviceID m w =
  regenerate m (after (path_events m ++ [EvReadFile path]) (files w) w).
Proof.
  intros Hpath Hnew. rewrite (VerifyDeviceID_run m w path Hpath).
  destruct (os.readFile (files w) path) as [s [e|]]; simpl in Hnew; now rewrite Hnew.
Qed.

(** The whole run of [VerifyDeviceID] when a new identifier is called
    for: the probe, then [MkdirAll], then [WriteFile], each of which may
    fail. *)
Lemma VerifyDeviceID_recovery m w path :
  fst (GetDeviceIDPath m w) = (path, None) ->
  needs_new (os.readFile (files w) path) ->
  let cmd := probe (GOOS w) in
  let dir := filepath.Dir path in
  let evs0 := path_events m ++ [EvReadFile path; EvCommand cmd] in
  let evs1 := evs0 ++ path_events m ++ [EvMkdirAll dir perm_0o700] in
  VerifyDeviceID m w =
  match output w cmd with
  | (_, Some e) =>
    (("", Some (Wrap "failed to generate new device ID"
                 (Wrap "failed to generate device ID"
                   (Wrap "failed to get system info" e)))),
     after evs0 (files w) w)
  | (info, None) =>
    match os.mkdirAll (S (String.length dir)) (files w) dir perm_0o700 with
    | (fs1, Some e) =>
      (("", Some (Wrap "failed to save new device ID"
                   (Wrap "failed to create directory" e))),
       after evs1 fs1 w)
    | (fs1, None) =>
      match os.writeFile fs1 path (fingerprint info) perm_0o600 with
      | (fs2, Some e) =>
        (("", Some (Wrap "failed to save new device ID"
                     (Wrap "failed to write device ID" e))),
         after (evs1 ++ [EvWriteFile path (fingerprint info) perm_0o600]) fs1 w)
      | (fs2, None) =>
        ((fingerprint info, None),
         after (evs1 ++ [EvWriteFile path (fingerprint info) perm_0o600]) fs2 w)
      end
    end
  end.
Proof.
  intros Hpath Hnew cmd dir evs0 evs1.
  rewrite (VerifyDeviceID_needs_new m w path Hpath Hnew).
  rewrite (regenerate_run m _ path) by now rewrite GetDeviceIDPath_after.
  rewrite files_after. simpl GOOS. simpl output. fold cmd dir. cbv zeta.
  destruct (output w cmd) as [info [e|]].
  { rewrite after_after. unfold evs0. now rewrite <- app_assoc. }
  destruct (os.mkdirAll _ _ _ _) as [fs1 [e|]].
  { rewrite after_after. unfold evs1, evs0. now rewrite <- !app_assoc. }
  destruct (os.writeFile _ _ _ _) as [fs2 [e|]] eqn:Hwr; rewrite after_after;
    unfold evs1, evs0; rewrite <- !app_assoc; [|reflexivity].
  now rewrite (writeFile_err _ _ _ _ _ _ Hwr).
Qed.

(** C1. When the identifier file is absent, or reads and does not hold a
    fingerprint, [VerifyDeviceID] runs the probe, hashes what it prints,
    saves the digest and returns it. If the probe fails, or the directory
    cannot be made, or the file cannot be written, the call returns no
    identifier and the error of the step that failed, wrapped; otherwise
    it returns the new identifier and the file holds it. *)
Theorem VerifyDeviceID_regenerates (m : Manager) (w : World) (path : string) :
  fst (GetDeviceIDPath m w) = (path, None) ->
  needs_new (os.readFile (files w) path) ->
  let cmd := probe (GOOS w) in
  let dir := filepath.Dir path in
  let mkdirAll := os.mkdirAll (S (String.length dir)) (files w) dir perm_0o700 in
  let r := VerifyDeviceID m w in
  (forall s e, output w cmd = (s, Some e) ->
     fst r = ("", Some (Wrap "failed to generate new device ID"
                         (Wrap "failed to generate device ID"
                           (Wrap "failed to get system info" e)))) /\
     fails_with ProbeError (fst r) /\
     files (snd r) = files w /\
     trace (snd r) = trace w ++ path_events m ++ [EvReadFile path; EvCommand cmd]) /\
  (forall info fs1 e, output w cmd = (info, None) -> mkdirAll = (fs1, Some e) ->
     fst r = ("", Some (Wrap "failed to save new device ID"
                         (Wrap "failed to create directory" e))) /\
     fails_with StorageError (fst r) /\
     files (snd r) = fs1) /\
  (forall info fs1 fs2 e, output w cmd = (info, None) -> mkdirAll = (fs1, None) ->
     os.writeFile fs1 path (fingerprint info) perm_0o600 = (fs2, Some e) ->
     fst r = ("", Some (Wrap "failed to save new device ID"
                         (Wrap "failed to write device ID" e))) /\
     fails_with StorageError (fst r) /\
     files (snd r) = fs1) /\
  (forall info fs1 fs2, output w cmd = (info, None) -> mkdirAll = (fs1, None) ->
     os.writeFile fs1 path (fingerprint info) perm_0o600 = (fs2, None) ->
     fst r = (fingerprint info, None) /\
     files (snd r) = fs2 /\
     (exists mode, fs2 !! path = Some (os.File mode (fingerprint info))) /\
     trace (snd r) =
       trace w ++ path_events m ++ [EvReadFile path; EvCommand cmd] ++
       path_events m ++
       [EvMkdirAll dir perm_0o700; EvWriteFile path (fingerprint info) perm_0o600]).
Proof.
  intros Hpath Hnew cmd dir mkdirAll r.
  pose proof (VerifyDeviceID_recovery m w path Hpath Hnew) as Hrun.
  cbv zeta in Hrun. fold cmd dir mkdirAll r in Hrun.
  split; [|split; [|split]].
  - intros s e Hout. rewrite Hout in Hrun. rewrite Hrun. cbn [fst snd].
    split; [reflexivity|]. split; [split; eauto|].
    split; [reflexivity|]. now rewrite trace_after.
  - intros info fs1 e Hout Hmk. rewrite Hout, Hmk in Hrun. rewrite Hrun.
    cbn [fst snd]. split; [reflexivity|]. split; [split; eauto | reflexivity].
  - intros info fs1 fs2 e Hout Hmk Hwr. rewrite Hout, Hmk, Hwr in Hrun.
    rewrite Hrun. cbn [fst snd].
    split; [reflexivity|]. split; [split; eauto | reflexivity].
  - intros info fs1 fs2 Hout Hmk Hwr. rewrite Hout, Hmk, Hwr in Hrun.
    rewrite Hrun. cbn [fst snd].
    split; [reflexivity|]. split; [reflexivity|]. split.
    + destruct (writeFile_ok _ _ _ _ _ Hwr) as (mode & -> & _).
      exists mode. apply lookup_insert_eq.
    + rewrite trace_after. now rewrite <- !app_assoc.
Qed.

(** A first run in a fresh storage directory: the file is absent, the
    probe answers, the identifier is saved and returned. *)
Lemma VerifyDeviceID_fresh :
  let path := "/tmp/custom/my-id" in
  let fs2 := <[path := os.File perm_0o600 linux_id]> linux_fs in
  fst (GetDeviceIDPath custom linux) = (path, None) /\
  needs_new (os.readFile (files linux) path) /\
  fst (VerifyDeviceID custom linux) = (linux_id, None) /\
  files (snd (VerifyDeviceID custom linux)) = fs2.
Proof.
  intros path fs2.
  assert (Hpath : fst (GetDeviceIDPath custom linux) = (path, None)) by reflexivity.
  assert (Hnew : needs_new (os.readFile (files linux) path)) by (vm_compute; reflexivity).
  split; [exact Hpath|]. split; [exact Hnew|].
  destruct (VerifyDeviceID_regenerates custom linux path Hpath Hnew) as (_ & _ & _ & Hok).
  destruct (Hok ("abc" +:+ String "010" "") linux_fs fs2) as (Hr & Hfs & _).
  - reflexivity.
  - vm_compute. reflexivity.
  - vm_compute. reflexivity.
  - split; assumption.
Defined.









(** ** The scenarios of the design document *)

(** Validation: sixty-four zeros pass; a short string, sixty-four
    upper-case digits and a fingerprint with a newline after it do not. *)
Lemma IsValidSHA256_examples :
  IsValidSHA256 zeros64 = true /\
  IsValidSHA256 "abc" = false /\
  IsValidSHA256 upper64 = false /\
  IsValidSHA256 (zeros64 +:+ String "010" "") = false.
Proof.
  destruct IsValidSHA256_spec as (_ & _ & Hlen & Hchar & Hupper & Hzeros).
  split; [exact Hzeros|]. split; [|split].
  - apply Hlen. discriminate.
  - apply (Hchar upper64 "A"%char); [reflexivity | now left |].
    apply Hupper. vm_compute. split; discriminate.
  - apply Hlen. discriminate.
Defined.

(** Generation ignores the configuration. *)
Lemma GenerateDeviceID_any_config :
  GenerateDeviceID custom linux = GenerateDeviceID (NewManager (mkConfig "" "")) linux /\
  trace (snd (GenerateDeviceID data linux)) = [EvCommand ["cat"; "/etc/machine-id"]].
Proof.
  split.
  - exact (proj1 (GenerateDeviceID_config_independent
                    (mkConfig "/tmp/custom" "my-id") (mkConfig "" "") linux)).
  - exact (proj2 (proj2 (proj2 (GenerateDeviceID_config_independent
                                  (mkConfig "/data" "") (mkConfig "" "") linux)))).
Defined.

(** Self-healing: a file holding [not-a-hash] is replaced by the
    identifier of the machine, which is returned. *)
Example VerifyDeviceID_self_healing :
  let w := linux_with perm_0o600 "not-a-hash" in
  fst (VerifyDeviceID custom w) = (linux_id, None) /\
  os.readFile (files (snd (VerifyDeviceID custom w))) "/tmp/custom/my-id" = (linux_id, None).
Proof. vm_compute. split; reflexivity. Qed.

(** Permission scenario: the storage directory cannot be created. *)
Example VerifyDeviceID_mkdir_denied :
  VerifyDeviceID data linux_readonly =
  (("", Some (Wrap "failed to save new device ID"
               (Wrap "failed to create directory" (PathError "mkdir" "/data" EACCES)))),
   after [EvReadFile "/data/.device_id"; EvCommand ["cat"; "/etc/machine-id"];
          EvMkdirAll "/data" perm_0o700] (files linux_readonly) linux_readonly).
Proof. vm_compute. reflexivity. Qed.

(** The probe command is not there. *)
Example VerifyDeviceID_probe_fails :
  fst (VerifyDeviceID custom no_probe) =
  ("", Some (Wrap "failed to generate new device ID"
              (Wrap "failed to generate device ID"
                (Wrap "failed to get system info"
                  (ExecError "executable file not found in %PATH%"))))) /\
  trace (snd (VerifyDeviceID custom no_probe)) =
  [EvReadFile "/tmp/custom/my-id"; EvCommand ["wmic"; "csproduct"; "get"; "UUID"]] /\
  files (snd (VerifyDeviceID custom no_probe)) = files no_probe.
Proof. vm_compute. repeat split. Qed.

(** The default location, created with its parents. *)
Example VerifyDeviceID_default_location :
  let r := VerifyDeviceID (NewManager (mkConfig "" "")) linux in
  fst r = (linux_id, None) /\
  files (snd r) !! "/home/u/.parity" = Some (os.Directory perm_0o700) /\
  files (snd r) !! "/home/u/.parity/.device_id" = Some (os.File perm_0o600 linux_id).
Proof. vm_compute. repeat split. Qed.

(** * Further properties of the package *)

(** ** Lemmas on runs *)

(** A path that does not resolve: there is no [StorageDir] and the home
    directory is not known. *)
Lemma GetDeviceIDPath_error m w p e :
  fst (GetDeviceIDPath m w) = (p, Some e) ->
  p = "" /\ StorageDir (config m) = "" /\
  exists h e0, home w = (h, Some e0) /\ e = Wrap "failed to get user home directory" e0.
Proof.
  unfold GetDeviceIDPath, sys.UserHomeDir. run.
  destruct (decide (StorageDir (config m) = "")) as [Hempty|Hset].
  - rewrite bool_decide_eq_true_2 by assumption. simpl.
    destruct (home w) as [h [e0|]] eqn:Hhome; simpl; [|discriminate].
    intros H. injection H as <- <-. eauto 6.
  - rewrite bool_decide_eq_false_2 by assumption. discriminate.
Qed.

Lemma VerifyDeviceID_unresolved m w p e :
  fst (GetDeviceIDPath m w) = (p, Some e) ->
  VerifyDeviceID m w =
  (("", Some (Wrap "failed to get device ID path" e)),
   after (path_events m) (files w) w).
Proof.
  intros Hpath. unfold VerifyDeviceID. run.
  now rewrite GetDeviceIDPath_run, Hpath.
Qed.

Lemma SaveDeviceID_unresolved m w deviceID p e :
  IsValidSHA256 deviceID = true ->
  fst (GetDeviceIDPath m w) = (p, Some e) ->
  SaveDeviceID m deviceID w =
  (Some (Wrap "failed to get device ID path" e), after (path_events m) (files w) w).
Proof.
  intros Hvalid Hpath. unfold SaveDeviceID. rewrite Hvalid. run.
  now rewrite GetDeviceIDPath_run, Hpath.
Qed.


(** ** Construction *)

(** X1. [NewManager] never leaves the file name empty: an empty
    [IDFileName] becomes [.device_id], a given one is kept, the storage
    directory is kept as it is; so an empty file name and [.device_id]
    give the same manager, and building a manager from the
    configuration of a built manager changes nothing. *)
Theorem NewManager_normalises (c : Config) :
  IDFileName (config (NewManager c)) <> "" /\
  StorageDir (config (NewManager c)) = StorageDir c /\
  (IDFileName c <> "" -> config (NewManager c) = c) /\
  (IDFileName c = "" ->
     NewManager c = NewManager (mkConfig (StorageDir c) DefaultIDFileName)) /\
  NewManager (config (NewManager c)) = NewManager c.
Proof.
  unfold NewManager.
  destruct (decide (IDFileName c = "")) as [Hempty|Hset].
  - rewrite (bool_decide_eq_true_2 _ Hempty). cbn [config StorageDir IDFileName].
    rewrite (bool_decide_eq_false_2 (DefaultIDFileName = "")) by discriminate.
    repeat split; try discriminate; tauto.
  - rewrite (bool_decide_eq_false_2 _ Hset). cbn [config].
    rewrite (bool_decide_eq_false_2 _ Hset).
    repeat split; try assumption; tauto.
Qed.

(** ** Failures before the file is touched *)

(** X2. Without a [StorageDir] and without a home directory, both
    [VerifyDeviceID] and [SaveDeviceID] of a fingerprint stop at the path
    resolution: they return its error wrapped in "failed to get device ID
    path" (and [VerifyDeviceID] no identifier), having asked for the home
    directory and made no other system call: nothing is read, no command
    is run, nothing is written. *)
Theorem unresolved_path_stops (m : Manager) (w : World) (h deviceID : string) (e : error) :
  StorageDir (config m) = "" ->
  home w = (h, Some e) ->
  IsValidSHA256 deviceID = true ->
  let err := Wrap "failed to get device ID path"
               (Wrap "failed to get user home directory" e) in
  VerifyDeviceID m w = (("", Some err), after [EvUserHomeDir] (files w) w) /\
  SaveDeviceID m deviceID w = (Some err, after [EvUserHomeDir] (files w) w) /\
  kind err = Some PathResolutionError /\
  cause err = cause e.
Proof.
  intros Hempty Hhome Hvalid err.
  assert (Hpath : fst (GetDeviceIDPath m w) =
                  ("", Some (Wrap "failed to get user home directory" e))).
  { unfold GetDeviceIDPath, sys.UserHomeDir. run.
    rewrite (bool_decide_eq_true_2 _ Hempty). simpl. now rewrite Hhome. }
  assert (Hevs : path_events m = [EvUserHomeDir]).
  { unfold path_events. now rewrite (bool_decide_eq_true_2 _ Hempty). }
  rewrite (VerifyDeviceID_unresolved m w _ _ Hpath).
  rewrite (SaveDeviceID_unresolved m w deviceID _ _ Hvalid Hpath), Hevs.
  repeat split.
Qed.

Lemma unresolved_path_stops_homeless :
  home homeless = ("", Some (New "$HOME is not defined")) /\
  fst (VerifyDeviceID default homeless) =
    ("", Some (Wrap "failed to get device ID path"
                (Wrap "failed to get user home directory" (New "$HOME is not defined")))) /\
  trace (snd (VerifyDeviceID default homeless)) = [EvUserHomeDir] /\
  trace (snd (SaveDeviceID default zeros64 homeless)) = [EvUserHomeDir].
Proof.
  split; [reflexivity|].
  destruct (unresolved_path_stops default homeless "" zeros64 (New "$HOME is not defined")
              eq_refl eq_refl eq_refl) as (Hv & Hs & _).
  rewrite Hv, Hs. repeat split.
Defined.

(** X3. [GenerateDeviceID] fails exactly when the probe command fails.
    It then returns no identifier, whatever the command had printed, and
    the error of the command wrapped in "failed to get system info" and
    "failed to generate device ID"; the command is the only system call
    and the file system is as before. *)
Theorem GenerateDeviceID_probe_error (m : Manager) (w : World) :
  (snd (fst (GenerateDeviceID m w)) = None <->
   snd (output w (probe (GOOS w))) = None) /\
  (forall out e, output w (probe (GOOS w)) = (out, Some e) ->
     let err := Wrap "failed to generate device ID"
                  (Wrap "failed to get system info" e) in
     GenerateDeviceID m w =
       (("", Some err), after [EvCommand (probe (GOOS w))] (files w) w) /\
     getSystemInfo w =
       (("", Some (Wrap "failed to get system info" e)),
        after [EvCommand (probe (GOOS w))] (files w) w) /\
     kind err = Some ProbeError /\ cause err = cause e).
Proof.
  rewrite GenerateDeviceID_run, getSystemInfo_run.
  destruct (output w (probe (GOOS w))) as [out [e|]]; simpl; split.
  - split; discriminate.
  - intros out' e' H. injection H as -> ->. repeat split.
  - tauto.
  - intros out' e' H. discriminate.
Qed.

(** A probe that prints and then fails gives no identifier. *)
Lemma GenerateDeviceID_probe_error_flaky :
  output flaky (probe (GOOS flaky)) = ("IOPlatformUUID", Some (ExecError "exit status 1")) /\
  GenerateDeviceID custom flaky =
  (("", Some (Wrap "failed to generate device ID"
               (Wrap "failed to get system info" (ExecError "exit status 1")))),
   after [EvCommand ["ioreg"; "-d2"; "-c"; "IOPlatformExpertDevice"]] (files flaky) flaky).
Proof.
  split; [reflexivity|].
  exact (proj1 (proj2 (GenerateDeviceID_probe_error custom flaky) _ _ eq_refl)).
Defined.

(** ** Saving *)








(** ** What every call guarantees *)

Lemma regenerate_shape m w :
  let r := fst (regenerate m w) in
  (snd r = None /\ IsValidSHA256 (fst r) = true) \/ (fst r = "" /\ snd r <> None).
Proof.
  unfold regenerate. run. rewrite GenerateDeviceID_run.
  destruct (output w (probe (GOOS w))) as [info [e|]].
  - right. split; [reflexivity | discriminate].
  - destruct (SaveDeviceID m (fingerprint info) _) as [[e|] w2].
    + right. split; [reflexivity | discriminate].
    + left. split; [reflexivity | apply digest_valid].
Qed.

(** X6. Whatever the world, [VerifyDeviceID] returns either a
    fingerprint and no error, or no identifier and an error: an
    identifier that is not a fingerprint is never returned, and neither
    is an identifier together with an error. *)
Theorem VerifyDeviceID_result_shape (m : Manager) (w : World) :
  let r := fst (VerifyDeviceID m w) in
  (snd r = None /\ IsValidSHA256 (fst r) = true) \/ (fst r = "" /\ snd r <> None).
Proof.
  destruct (fst (GetDeviceIDPath m w)) as [path [e|]] eqn:Hpath.
  { rewrite (VerifyDeviceID_unresolved m w _ _ Hpath).
    right. split; [reflexivity | discriminate]. }
  rewrite (VerifyDeviceID_run m w path Hpath). cbv zeta.
  destruct (os.readFile (files w) path) as [s [e|]].
  - destruct (os.IsNotExist e); [apply regenerate_shape|].
    right. split; [reflexivity | discriminate].
  - destruct (IsValidSHA256 s) eqn:Hvalid; [|apply regenerate_shape].
    left. split; [reflexivity | exact Hvalid].
Qed.





Lemma path_events_allowed m w : Forall (allowed m w) (path_events m).
Proof.
  unfold path_events. destruct (decide (StorageDir (config m) = "")) as [He|Hs].
  - rewrite (bool_decide_eq_true_2 _ He). repeat constructor. exact He.
  - rewrite (bool_decide_eq_false_2 _ Hs). constructor.
Qed.

Ltac count_events :=
  unfold count, path_events; destruct (bool_decide _); cbn; lia.

Ltac allowed_events :=
  repeat first
    [ apply path_events_allowed
    | apply Forall_nil_2
    | apply Forall_cons_2; [assumption|]
    | apply Forall_app_2 ].

(** X8. The system calls of [VerifyDeviceID], in any world: they are
    calls the manager may make (the home directory only without a
    [StorageDir], the probe command of the target, a read of its own
    identifier file, [MkdirAll] of that file's directory with mode
    [0o700], a write of a fingerprint to that file with mode [0o600]);
    the file is read at most once and the probe is run at most once; a
    directory is made only after the probe ran, and the file is written
    only after the directory was made. *)
Theorem VerifyDeviceID_calls (m : Manager) (w : World) :
  exists evs,
    trace (snd (VerifyDeviceID m w)) = trace w ++ evs /\
    Forall (allowed m w) evs /\
    (count isWrite evs <= count isMkdirAll evs)%nat /\
    (count isMkdirAll evs <= count isCommand evs)%nat /\
    (count isCommand evs <= 1)%nat /\
    (count isReadFile evs <= 1)%nat.
Proof.
  destruct (fst (GetDeviceIDPath m w)) as [path [e|]] eqn:Hpath.
  { rewrite (VerifyDeviceID_unresolved m w _ _ Hpath).
    exists (path_events m). split; [reflexivity|].
    split; [apply path_events_allowed|]. repeat split; count_events. }
  assert (Hread_ok : allowed m w (EvReadFile path)) by exact Hpath.
  assert (Hquiet : exists evs,
            trace (after (path_events m ++ [EvReadFile path]) (files w) w) = trace w ++ evs /\
            Forall (allowed m w) evs /\
            (count isWrite evs <= count isMkdirAll evs)%nat /\
            (count isMkdirAll evs <= count isCommand evs)%nat /\
            (count isCommand evs <= 1)%nat /\
            (count isReadFile evs <= 1)%nat).
  { exists (path_events m ++ [EvReadFile path]). split; [reflexivity|]. split.
    - apply Forall_app. split; [apply path_events_allowed | repeat constructor; exact Hread_ok].
    - repeat split; count_events. }
  assert (Hrecover : needs_new (os.readFile (files w) path) ->
            exists evs,
              trace (snd (VerifyDeviceID m w)) = trace w ++ evs /\
              Forall (allowed m w) evs /\
              (count isWrite evs <= count isMkdirAll evs)%nat /\
              (count isMkdirAll evs <= count isCommand evs)%nat /\
              (count isCommand evs <= 1)%nat /\
              (count isReadFile evs <= 1)%nat).
  { intros Hnew. rewrite (VerifyDeviceID_recovery m w path Hpath Hnew). cbv zeta.
    assert (Hmk_ok : allowed m w (EvMkdirAll (filepath.Dir path) perm_0o700)).
    { split; [reflexivity|]. exists path. split; [exact Hpath | reflexivity]. }
    destruct (output w (probe (GOOS w))) as [info [e|]].
    { eexists. split; [reflexivity|]. split; [|repeat split; count_events].
      assert (Hcmd : allowed m w (EvCommand (probe (GOOS w)))) by reflexivity.
      allowed_events. }
    assert (Hcmd : allowed m w (EvCommand (probe (GOOS w)))) by reflexivity.
    assert (Hwr_ok : allowed m w (EvWriteFile path (fingerprint info) perm_0o600)).
    { split; [reflexivity|]. split; [exact Hpath | apply digest_valid]. }
    destruct (os.mkdirAll _ _ _ _) as [fs1 [e|]].
    { eexists. split; [reflexivity|]. split; [allowed_events|].
      repeat split; count_events. }
    destruct (os.writeFile _ _ _ _) as [fs2 [e|]].
    all: eexists; (split; [reflexivity|]); split;
      [ allowed_events | repeat split; count_events ]. }
  rewrite (VerifyDeviceID_run m w path Hpath) in *. cbv zeta in *.
  destruct (os.readFile (files w) path) as [s [e|]]; cbn [needs_new] in Hrecover.
  - destruct (os.IsNotExist e); [now apply Hrecover | exact Hquiet].
  - destruct (IsValidSHA256 s); [exact Hquiet | now apply Hrecover].
Qed.

(** ** Managers that share a file *)



(** ** Self-healing *)



(** ** A storage directory makes the home directory irrelevant *)

Lemma after_with_home evs fs h w :
  after evs fs (with_home h w) = with_home h (after evs fs w).
Proof. reflexivity. Qed.

Lemma GetDeviceIDPath_with_home m h w :
  StorageDir (config m) <> "" ->
  fst (GetDeviceIDPath m (with_home h w)) = fst (GetDeviceIDPath m w) /\
  (forall p e, fst (GetDeviceIDPath m w) <> (p, Some e)) /\
  path_events m = [].
Proof.
  intros Hset. unfold GetDeviceIDPath, path_events.
  rewrite (bool_decide_eq_false_2 _ Hset). repeat split. discriminate.
Qed.

(** X12. With a [StorageDir], the home directory plays no part: whatever
    [os.UserHomeDir] answers, an error included, [VerifyDeviceID] and
    [SaveDeviceID] return the same results, leave the same file system
    and make the same system calls, none of which asks for the home
    directory. *)
Theorem StorageDir_ignores_home (m : Manager) (w : World) (h : result string) :
  StorageDir (config m) <> "" ->
  VerifyDeviceID m (with_home h w) =
    (fst (VerifyDeviceID m w), with_home h (snd (VerifyDeviceID m w))) /\
  (forall deviceID,
     SaveDeviceID m deviceID (with_home h w) =
       (fst (SaveDeviceID m deviceID w), with_home h (snd (SaveDeviceID m deviceID w)))) /\
  ~ In EvUserHomeDir (drop (length (trace w)) (trace (snd (VerifyDeviceID m w)))).
Proof.
  intros Hset.
  destruct (GetDeviceIDPath_with_home m h w Hset) as (Hsame & Hok & Hevs).
  destruct (fst (GetDeviceIDPath m w)) as [path [e|]] eqn:Hpath;
    [exfalso; now apply (Hok path e)|].
  assert (Hsave : forall deviceID,
            SaveDeviceID m deviceID (with_home h w) =
            (fst (SaveDeviceID m deviceID w), with_home h (snd (SaveDeviceID m deviceID w)))).
  { intros deviceID. destruct (IsValidSHA256 deviceID) eqn:Hvalid.
    2:{ unfold SaveDeviceID. now rewrite Hvalid. }
    rewrite (SaveDeviceID_run m w path deviceID Hvalid Hpath).
    rewrite (SaveDeviceID_run m (with_home h w) path deviceID Hvalid Hsame).
    cbv zeta. simpl files.
    destruct (os.mkdirAll _ _ _ _) as [fs1 [e|]]; [reflexivity|].
    destruct (os.writeFile _ _ _ _) as [fs2 [e|]]; reflexivity. }
  assert (Hverify : VerifyDeviceID m (with_home h w) =
            (fst (VerifyDeviceID m w), with_home h (snd (VerifyDeviceID m w))) /\
            exists evs fs, snd (VerifyDeviceID m w) = after evs fs w /\
                           ~ In EvUserHomeDir evs).
  { rewrite (VerifyDeviceID_run m w path Hpath).
    rewrite (VerifyDeviceID_run m (with_home h w) path Hsame).
    cbv zeta. simpl files. rewrite Hevs. simpl app.
    assert (Hre :
              regenerate m (after [EvReadFile path] (files w) (with_home h w)) =
              (fst (regenerate m (after [EvReadFile path] (files w) w)),
               with_home h (snd (regenerate m (after [EvReadFile path] (files w) w)))) /\
              exists evs fs,
                snd (regenerate m (after [EvReadFile path] (files w) w)) = after evs fs w /\
                ~ In EvUserHomeDir evs).
    { rewrite (regenerate_run m (after [EvReadFile path] (files w) w) path)
        by now rewrite GetDeviceIDPath_after.
      rewrite (regenerate_run m (after [EvReadFile path] (files w) (with_home h w)) path)
        by now rewrite GetDeviceIDPath_after.
      cbv zeta. rewrite Hevs. simpl files. simpl GOOS. simpl output. simpl app.
      destruct (output w (probe (GOOS w))) as [info [e|]].
      { rewrite !after_after. split; [reflexivity|].
        eexists _, _. split; [reflexivity|]. simpl. intuition discriminate. }
      destruct (os.mkdirAll _ _ _ _) as [fs1 [e|]].
      { rewrite !after_after. split; [reflexivity|].
        eexists _, _. split; [reflexivity|]. simpl. intuition discriminate. }
      destruct (os.writeFile _ _ _ _) as [fs2 [e|]];
        rewrite !after_after; (split; [reflexivity|]);
        eexists _, _; (split; [reflexivity|]); simpl; intuition discriminate. }
    destruct (os.readFile (files w) path) as [s [e|]].
    - destruct (os.IsNotExist e); [exact Hre|].
      split; [reflexivity|]. eexists _, _. split; [reflexivity|].
      simpl. intuition discriminate.
    - destruct (IsValidSHA256 s) eqn:Hvalid; [|exact Hre].
      split; [reflexivity|]. eexists _, _. split; [reflexivity|].
      simpl. intuition discriminate. }
  destruct Hverify as (Hv & evs & fs & Hw1 & Hnot).
  split; [exact Hv|]. split; [exact Hsave|].
  rewrite Hw1, trace_after, drop_app_length. exact Hnot.
Qed.

(** The manager [custom] works for a user without a home directory. *)
Lemma StorageDir_ignores_home_homeless :
  StorageDir (config custom) <> "" /\
  homeless = with_home ("", Some (New "$HOME is not defined")) linux /\
  fst (VerifyDeviceID custom homeless) = (linux_id, None).
Proof.
  assert (Hset : StorageDir (config custom) <> "") by discriminate.
  split; [exact Hset|]. split; [reflexivity|].
  change homeless with (with_home ("", Some (New "$HOME is not defined")) linux).
  rewrite (proj1 (StorageDir_ignores_home custom linux _ Hset)).
  vm_compute. reflexivity.
Defined.

(** ** The kinds of failure *)

(** X13. The failures of the two operations, by the step that failed.
    An error of [VerifyDeviceID] is a path resolution error, a storage
    error or a probe error: it never rejects the identifier it
    generated. An error of [SaveDeviceID] is the bare "invalid device ID
    format" exactly when the identifier given is not a fingerprint, and
    is otherwise a path resolution error or a storage error. *)
Theorem failure_kinds (m : Manager) (w : World) :
  (forall e, snd (fst (VerifyDeviceID m w)) = Some e ->
     kind e = Some PathResolutionError \/ kind e = Some StorageError \/
     kind e = Some ProbeError) /\
  (forall deviceID e, fst (SaveDeviceID m deviceID w) = Some e ->
     (IsValidSHA256 deviceID = false /\ e = New "invalid device ID format") \/
     (IsValidSHA256 deviceID = true /\
      (kind e = Some PathResolutionError \/ kind e = Some StorageError))).
Proof.
  assert (Hsave : forall w0 deviceID e, fst (SaveDeviceID m deviceID w0) = Some e ->
            (IsValidSHA256 deviceID = false /\ e = New "invalid device ID format") \/
            (IsValidSHA256 deviceID = true /\
             (kind e = Some PathResolutionError \/ kind e = Some StorageError))).
  { intros w0 deviceID e. destruct (IsValidSHA256 deviceID) eqn:Hvalid.
    2:{ unfold SaveDeviceID. rewrite Hvalid. simpl. intros H. injection H as <-. now left. }
    intros He. right. split; [reflexivity|].
    destruct (fst (GetDeviceIDPath m w0)) as [path [e0|]] eqn:Hpath.
    - rewrite (SaveDeviceID_unresolved m w0 deviceID _ _ Hvalid Hpath) in He.
      injection He as <-.
      destruct (GetDeviceIDPath_error m w0 _ _ Hpath) as (_ & _ & h & e1 & _ & ->).
      now left.
    - rewrite (SaveDeviceID_run m w0 path deviceID Hvalid Hpath) in He. cbv zeta in He.
      destruct (os.mkdirAll _ _ _ _) as [fs1 [e1|]].
      { injection He as <-. now right. }
      destruct (os.writeFile _ _ _ _) as [fs2 [e2|]]; [|discriminate].
      injection He as <-. now right. }
  split; [|apply Hsave].
  intros e.
  assert (Hre : forall w0, snd (fst (regenerate m w0)) = Some e ->
            kind e = Some PathResolutionError \/ kind e = Some StorageError \/
            kind e = Some ProbeError).
  { intros w0. unfold regenerate. run. rewrite GenerateDeviceID_run.
    destruct (output w0 (probe (GOOS w0))) as [info [e0|]].
    { simpl. intros H. injection H as <-. now right; right. }
    destruct (SaveDeviceID m (fingerprint info) _) as [[e1|] w2] eqn:Hsv; [|discriminate].
    simpl. intros H. injection H as <-.
    assert (Hfst : fst (SaveDeviceID m (fingerprint info)
                          (after [EvCommand (probe (GOOS w0))] (files w0) w0)) = Some e1)
      by now rewrite Hsv.
    destruct (Hsave _ (fingerprint info) e1 Hfst) as [[Hbad _]|[_ [Hk|Hk]]].
    - unfold fingerprint in Hbad. now rewrite digest_valid in Hbad.
    - left. exact Hk.
    - right. left. exact Hk. }
  destruct (fst (GetDeviceIDPath m w)) as [path [e0|]] eqn:Hpath.
  { rewrite (VerifyDeviceID_unresolved m w _ _ Hpath). simpl. intros H. injection H as <-.
    destruct (GetDeviceIDPath_error m w _ _ Hpath) as (_ & _ & h & e1 & _ & ->).
    now left. }
  rewrite (VerifyDeviceID_run m w path Hpath). cbv zeta.
  destruct (os.readFile (files w) path) as [s [e0|]].
  - destruct (os.IsNotExist e0); [apply Hre|].
    simpl. intros H. injection H as <-. now right; left.
  - destruct (IsValidSHA256 s); [discriminate | apply Hre].
Qed.
